(** * BeHuman empathic recommender: the matching engine and the message
    synthesizer of [src/recommender/recommendation_engine.py].

    The development embeds the Python module shallowly:
    - a [str] is the list of its Unicode code points, so that [length]
      is Python's [len];
    - dictionary literals that the code iterates over, or only looks up,
      are association lists in source order;
    - the local variables a loop updates ([score], [reasons],
      [seen_ids], [self.products]) are threaded explicitly;
    - [str.lower] is a builtin whose Unicode tables are not part of the
      repository: the model takes it as the parameter [lower];
    - [random.choice] draws from an explicit random number. *)

From Stdlib Require Import ZArith NArith String Ascii Lia.
From stdpp Require Import base list gmap sorting.

(** ** Python strings *)

Module Py.

Definition char := N.
Definition str := list N.

(** Source literals are written as UTF-8 text and decoded to code
    points: [u"..."] stands for the decoded list. *)
Fixpoint utf8_decode (bs : list N) : str :=
  match bs with
  | [] => []
  | b0 :: r0 =>
    if (b0 <? 128)%N then b0 :: utf8_decode r0
    else match r0 with
         | [] => []
         | b1 :: r1 =>
           if (b0 <? 224)%N
           then ((b0 mod 32) * 64 + b1 mod 64)%N :: utf8_decode r1
           else match r1 with
                | [] => []
                | b2 :: r2 =>
                  if (b0 <? 240)%N
                  then ((b0 mod 16) * 4096 + (b1 mod 64) * 64
                        + b2 mod 64)%N :: utf8_decode r2
                  else match r2 with
                       | [] => []
                       | b3 :: r3 =>
                         ((b0 mod 8) * 262144 + (b1 mod 64) * 4096
                          + (b2 mod 64) * 64 + b3 mod 64)%N
                           :: utf8_decode r3
                       end
                end
         end
  end.

Definition decode (s : string) : str :=
  utf8_decode (List.map Byte.to_N (list_byte_of_string s)).

Notation "'u' s" :=
  (ltac:(let v := eval vm_compute in (decode s) in exact v))
  (at level 1, s at level 0, only parsing).

(** The empty string literal. *)
Definition empty : str := [].

(** [s.startswith(p)] *)
Fixpoint startswith (p s : str) : bool :=
  match p, s with
  | [], _ => true
  | _ :: _, [] => false
  | a :: p', b :: s' => (a =? b)%N && startswith p' s'
  end.

(** [needle in hay] on strings: substring test. *)
Fixpoint isin (needle hay : str) : bool :=
  startswith needle hay
  || match hay with
     | [] => false
     | _ :: t => isin needle t
     end.

(** [l[:n]] for any integer [n]: a negative bound counts from the
    end. *)
Definition slice_to {A} (l : list A) (n : Z) : list A :=
  if (0 <=? n)%Z then take (Z.to_nat n) l
  else take (Z.to_nat (Z.of_nat (length l) + n)) l.

(** [s.rfind(c)] for a one-character [c]: the highest index of [c],
    or -1. *)
Fixpoint rfind (c : char) (s : str) : Z :=
  match s with
  | [] => -1
  | x :: r =>
    let k := rfind c r in
    if (0 <=? k)%Z then (k + 1)%Z
    else if (x =? c)%N then 0%Z else (-1)%Z
  end.

(** [sep.join(l)] *)
Fixpoint join (sep : str) (l : list str) : str :=
  match l with
  | [] => []
  | [x] => x
  | x :: r => x ++ sep ++ join sep r
  end.

(** [d.get(k, default)] on a dictionary literal kept in source
    order. *)
Fixpoint dict_get {V} (d : list (str * V)) (k : str) (default : V) : V :=
  match d with
  | [] => default
  | (k', v) :: d' => if decide (k = k') then v else dict_get d' k default
  end.

(** [k in d] on a dictionary. *)
Definition dict_has {V} (d : list (str * V)) (k : str) : bool :=
  bool_decide (k ∈ d.*1).

(** [x in l] on a list of strings. *)
Definition list_has (x : str) (l : list str) : bool :=
  bool_decide (x ∈ l).

(** [random.choice(l)] with the random draw [rnd] made explicit; every
    pool it is applied to is non-empty. *)
Definition choice (rnd : nat) (l : list str) : str :=
  nth (rnd mod length l) l [].

(** Lower-casing of Basic Latin and Latin-1 Supplement letters, the
    alphabet of every literal of the module; used to run the model. *)
Definition lower_char (c : char) : char :=
  if ((65 <=? c) && (c <=? 90))%N then (c + 32)%N
  else if ((192 <=? c) && (c <=? 222) && negb (c =? 215))%N
       then (c + 32)%N
       else c.

Definition lower_latin1 (s : str) : str := List.map lower_char s.

End Py.

Import Py.

(** ** Data model *)

Record UserProfile := {
  user_id : str;
  name : str;
  age : Z;
  gender : str;
  hobbies : list str;
  goals : list str
}.

Record Situation := {
  type : str;
  subtype : str;
  context : str
}.

Record Product := {
  id : str;
  nombre : str;
  categoria_principal : str;
  subcategoria : str;
  precio_desde : Z;
  url : str;
  imagen_url : str;
  promocion : bool;
  descripcion : option str;
  activity_types : list str;
  situation_tags : list str
}.

(** [score] is a Python float that only ever holds sums of the integer
    weights 30, -50, 15, 5 and 10, which floats represent exactly; it is
    an integer here. *)
Record Recommendation := {
  product : Product;
  score : Z;
  reasons : list str
}.

(** A Python call either returns a value or raises. *)
Inductive outcome (A : Type) :=
| Returned (value : A)
| Raised (error : str).

Arguments Returned {A} value.
Arguments Raised {A} error.

(** ** Situation knowledge base *)

Record Config := {
  beneficial : list str;
  avoid : list str;
  keywords : list str;
  description : str
}.

Definition SITUATION_CONFIG : list (str * Config) :=
  [ (u"perdida_familiar",
     {| beneficial := [u"baja_estimulacion"; u"naturaleza"; u"social_suave";
                       u"mindfulness"; u"agua"];
        avoid := [u"alta_estimulacion"; u"competitivo"; u"fiesta"];
        keywords := [u"descanso"; u"tranquilo"; u"paz"; u"naturaleza"; u"spa";
                     u"estadía"; u"caminata"];
        description :=
          u"La pérdida requiere espacios de calma para procesar el duelo" |});
    (u"ruptura_amorosa",
     {| beneficial := [u"ejercicio"; u"social"; u"expresion_artistica";
                       u"naturaleza"; u"agua"];
        avoid := [u"romantico"; u"parejas"];
        keywords := [u"deporte"; u"grupo"; u"social"; u"arte"; u"natación";
                     u"gimnasio"; u"taller"];
        description :=
          u"El movimiento físico y las conexiones sociales ayudan a procesar" |});
    (u"ansiedad",
     {| beneficial := [u"mindfulness"; u"ejercicio_suave"; u"naturaleza";
                       u"agua"; u"baja_estimulacion"];
        avoid := [u"alta_estimulacion"; u"multitudes"; u"competitivo"];
        keywords := [u"yoga"; u"meditación"; u"natación"; u"spa";
                     u"relajación"; u"tranquilo"];
        description :=
          u"Actividades que calman el sistema nervioso son clave" |});
    (u"soledad",
     {| beneficial := [u"social"; u"grupal"; u"club"; u"voluntariado"];
        avoid := [u"individual"; u"solitario"];
        keywords := [u"grupo"; u"club"; u"taller"; u"clase"; u"social";
                     u"comunidad"];
        description :=
          u"Construir conexiones a través de intereses compartidos" |});
    (u"estres_laboral",
     {| beneficial := [u"desconexion"; u"naturaleza"; u"ejercicio"; u"spa";
                       u"agua"];
        avoid := [u"alta_concentracion"; u"competitivo"];
        keywords := [u"escapada"; u"descanso"; u"spa"; u"naturaleza";
                     u"deporte"; u"vacaciones"; u"parque"];
        description := u"Desconexión activa del entorno laboral" |});
    (u"duelo",
     {| beneficial := [u"baja_estimulacion"; u"naturaleza";
                       u"expresion_artistica"; u"social_suave"];
        avoid := [u"alta_estimulacion"; u"fiestas"];
        keywords := [u"tranquilo"; u"naturaleza"; u"arte"; u"caminata";
                     u"grupo de apoyo"];
        description := u"Espacio para procesar y honrar la pérdida" |}) ].

(** The default of [get_config]. *)
Definition no_signal : Config :=
  {| beneficial := []; avoid := []; keywords := []; description := empty |}.

Definition get_config (situation_type : str) : Config :=
  dict_get SITUATION_CONFIG situation_type no_signal.

(** ** Product tagger *)

Definition ACTIVITY_KEYWORDS : list (str * list str) :=
  [ (u"naturaleza", [u"ecológic"; u"natural"; u"caminata"; u"senderismo";
                     u"lagosol"; u"parque"; u"jardín"]);
    (u"agua", [u"acuático"; u"piscina"; u"natación"; u"spa"; u"agua";
               u"lagosol"]);
    (u"ejercicio", [u"deporte"; u"gimnasio"; u"natación"; u"fitness";
                    u"ejercicio"]);
    (u"social", [u"grupo"; u"club"; u"taller"; u"clase"; u"comunidad"]);
    (u"mindfulness", [u"yoga"; u"meditación"; u"bienestar"; u"relajación";
                      u"mindfulness"]);
    (u"baja_estimulacion", [u"descanso"; u"tranquilo"; u"estadía"; u"spa";
                            u"relax"; u"pasadía"]);
    (u"expresion_artistica", [u"arte"; u"pintura"; u"música"; u"teatro";
                              u"taller creativo"; u"manualidades"]);
    (u"turismo", [u"pasadía"; u"entrada"; u"tour"; u"viaje"; u"escapada"]) ].

Section Model.
Variable lower : str -> str.

Definition _infer_situations (activity_types : list str) : list str :=
  (List.filter (fun '(_, config) =>
                  existsb (fun at_ => list_has at_ (beneficial config))
                          activity_types)
               SITUATION_CONFIG).*1.

Definition tag_product (product : Product) : Product :=
  let text :=
    lower (nombre product ++ u" " ++ categoria_principal product ++ u" "
           ++ subcategoria product ++ u" "
           ++ default empty (descripcion product)) in
  let activity_types :=
    (List.filter (fun '(_, keywords) =>
                    existsb (fun kw => isin (lower kw) text) keywords)
                 ACTIVITY_KEYWORDS).*1 in
  {| id := id product;
     nombre := nombre product;
     categoria_principal := categoria_principal product;
     subcategoria := subcategoria product;
     precio_desde := precio_desde product;
     url := url product;
     imagen_url := imagen_url product;
     promocion := promocion product;
     descripcion := descripcion product;
     activity_types :=
       match activity_types with
       | [] => [u"general"]
       | _ :: _ => activity_types
       end;
     situation_tags := _infer_situations activity_types |}.


(** ** Recommendation engine *)

(** [raw.get(k)] is [None] when the key is absent. *)
Inductive PrecioJson :=
| PrecioDict (valor_numerico : option Z)
| PrecioOther.

Record RawProduct := {
  raw_id : option str;
  raw_nombre : option str;
  raw_categoria_principal : option str;
  raw_subcategoria : option str;
  raw_precio : option PrecioJson;
  raw_url : option str;
  raw_imagen_url : option str;
  raw_promocion : option bool;
  raw_descripcion : option str
}.

(** The [Product(...)] constructor call of the loading loop. *)
Definition product_of_raw (raw : RawProduct) : Product :=
  let precio := default (PrecioDict None) (raw_precio raw) in
  {| id := default empty (raw_id raw);
     nombre := default empty (raw_nombre raw);
     categoria_principal := default empty (raw_categoria_principal raw);
     subcategoria := default empty (raw_subcategoria raw);
     precio_desde :=
       match precio with
       | PrecioDict v => default 0%Z v
       | PrecioOther => 0%Z
       end;
     url := default empty (raw_url raw);
     imagen_url := default empty (raw_imagen_url raw);
     promocion := default false (raw_promocion raw);
     descripcion := raw_descripcion raw;
     activity_types := [];
     situation_tags := [] |}.

(** One iteration of the loading loop over the state
    [(seen_ids, self.products)]. *)
Definition load_step (st : gset (option str) * list Product)
    (raw : RawProduct) : gset (option str) * list Product :=
  let '(seen_ids, products) := st in
  if decide (raw_id raw ∈ seen_ids) then (seen_ids, products)
  else ({[ raw_id raw ]} ∪ seen_ids,
        products ++ [tag_product (product_of_raw raw)]).

(** [file] is [None] when [products_path] does not exist, and the
    parsed JSON array otherwise. *)
Definition _load_products (file : option (list RawProduct)) : list Product :=
  match file with
  | None => []
  | Some raw_products => (fold_left load_step raw_products (∅, [])).2
  end.

(** The body of the scoring loop, up to the final test: the [score]
    and [reasons] of one product. *)
Definition score_product (profile : UserProfile) (config : Config)
    (product : Product) : Z * list str :=
  let score := 0%Z in
  let reasons := [] in
  let matching_types :=
    List.filter (fun at_ => list_has at_ (beneficial config))
                (activity_types product) in
  let '(score, reasons) :=
    match matching_types with
    | [] => (score, reasons)
    | first :: _ =>
      ((score + 30 * Z.of_nat (length matching_types))%Z,
       reasons ++ [u"Actividad de tipo '" ++ first
                   ++ u"' ayuda en tu situación"])
    end in
  let score :=
    if existsb (fun at_ => list_has at_ (avoid config))
               (activity_types product)
    then (score - 50)%Z else score in
  let nombre_lower := lower (nombre product) in
  let matching_kw :=
    List.filter (fun kw => isin (lower kw) nombre_lower)
                (keywords config) in
  let '(score, reasons) :=
    match matching_kw with
    | [] => (score, reasons)
    | _ :: _ =>
      ((score + 15 * Z.of_nat (length matching_kw))%Z,
       reasons ++ [u"Incluye: " ++ join (u", ") (slice_to matching_kw 2)])
    end in
  let '(score, reasons) :=
    if promocion product
    then ((score + 5)%Z, reasons ++ [u"En promoción"])
    else (score, reasons) in
  fold_left
    (fun '(score, reasons) hobby =>
       let hobby_lower := lower hobby in
       if isin hobby_lower nombre_lower
          || isin hobby_lower (lower (subcategoria product))
       then ((score + 10)%Z,
             reasons ++ [u"Conecta con tu interés en " ++ hobby])
       else (score, reasons))
    (hobbies profile) (score, reasons).

(** [recommendations.sort(key=lambda r: r.score, reverse=True)]:
    Python's sort is stable, also when reversed.  Insertion from the
    right, placing an element before the entries whose score is not
    larger, computes that arrangement. *)
Fixpoint insert_desc (r : Recommendation) (l : list Recommendation)
    : list Recommendation :=
  match l with
  | [] => [r]
  | x :: l' =>
    if (score x <=? score r)%Z then r :: x :: l'
    else x :: insert_desc r l'
  end.

Definition sort_desc (l : list Recommendation) : list Recommendation :=
  foldr insert_desc [] l.

(** The list [recommendations] when the scoring loop ends. *)
Definition scored (products : list Product) (profile : UserProfile)
    (config : Config) : list Recommendation :=
  fold_left
    (fun recommendations product =>
       let '(score, reasons) := score_product profile config product in
       if (0 <? score)%Z
       then recommendations
              ++ [{| product := product; score := score;
                     reasons := reasons |}]
       else recommendations)
    products [].

(** [RecommendationEngine.recommend], with [self.products] as first
    argument. *)
Definition recommend (products : list Product) (profile : UserProfile)
    (situation : Situation) (top_n : Z) : list Recommendation :=
  match products with
  | [] => []
  | _ :: _ =>
    let config := get_config (type situation) in
    slice_to (sort_desc (scored products profile config)) top_n
  end.

(** The outcome of calling [recommend]: its body has no [raise]
    statement and no check of [top_n], and every operation in it is
    defined on all values of the declared types. *)
Definition recommend_call (products : list Product)
    (profile : UserProfile) (situation : Situation) (top_n : Z)
    : outcome (list Recommendation) :=
  Returned (recommend products profile situation top_n).

(** ** Empathic message generator *)

Definition CONFRONTATION : list (str * list (str * str)) :=
  [ (u"perdida_familiar",
     [ (u"padres", u"enfrentarte a la pérdida de tus padres");
       (u"pareja", u"atravesar la pérdida de tu compañero/a de vida");
       (u"hijo", u"sobrellevar la pérdida más difícil que existe");
       (u"hermano", u"procesar la partida de tu hermano/a");
       (u"general", u"enfrentar la partida de alguien que amabas") ]);
    (u"ruptura_amorosa",
     [ (u"reciente", u"procesar el fin de una relación importante");
       (u"larga", u"cerrar un capítulo significativo de tu vida");
       (u"general", u"sanar después de una ruptura") ]);
    (u"ansiedad",
     [ (u"laboral", u"manejar la presión que el trabajo pone sobre ti");
       (u"social", u"navegar el peso de las interacciones sociales");
       (u"general", u"lidiar con pensamientos que no te dan tregua") ]);
    (u"soledad",
     [ (u"mudanza", u"construir conexiones en un lugar nuevo");
       (u"aislamiento", u"romper el ciclo de aislamiento");
       (u"general", u"encontrar tu lugar entre otros") ]);
    (u"estres_laboral",
     [ (u"burnout", u"recuperarte del agotamiento profesional");
       (u"presion", u"sostener el peso de múltiples responsabilidades");
       (u"general", u"encontrar equilibrio entre trabajo y vida") ]);
    (u"duelo",
     [ (u"reciente", u"atravesar los primeros momentos del duelo");
       (u"prolongado", u"continuar tu camino mientras honras la memoria");
       (u"general", u"procesar una pérdida profunda") ]) ].

Definition CALMING : list (str * list str) :=
  [ (u"perdida_familiar",
     [ u"Este dolor es parte de haber amado profundamente.";
       u"No hay tiempo correcto para sanar, solo el tuyo.";
       u"Cada día que enfrentas es un acto de valentía." ]);
    (u"ruptura_amorosa",
     [ u"Lo que sientes ahora no es permanente.";
       u"El vacío actual dejará espacio para algo nuevo.";
       u"Mereces tiempo para reconstruirte." ]);
    (u"ansiedad",
     [ u"La calma es una habilidad que se entrena.";
       u"Tu mente trabaja de más tratando de protegerte.";
       u"Pequeños momentos de paz se acumulan." ]);
    (u"soledad",
     [ u"Buscar conexión es señal de fortaleza.";
       u"Las mejores amistades empiezan con un primer paso.";
       u"Tu presencia tiene valor aunque no lo sientas." ]);
    (u"estres_laboral",
     [ u"Tu valor no se mide en horas trabajadas.";
       u"Descansar es parte del trabajo bien hecho.";
       u"Nadie funciona bien con el tanque vacío." ]);
    (u"duelo",
     [ u"El duelo no es algo que superar, sino integrar.";
       u"Honrar lo que perdiste también es vivir.";
       u"No tienes que estar bien, solo tienes que seguir." ]) ].

Definition ACTIVITY_BENEFITS : list (str * str) :=
  [ (u"naturaleza", u"la naturaleza tiene un efecto restaurador comprobado");
    (u"agua", u"el agua ayuda a liberar tensiones acumuladas");
    (u"mindfulness",
     u"calmar la mente es el primer paso hacia la paz interior");
    (u"ejercicio", u"el movimiento físico libera tensión y mejora el ánimo");
    (u"social", u"conectar con otros nos recuerda que no estamos solos");
    (u"baja_estimulacion", u"a veces el mejor paso es simplemente pausar");
    (u"expresion_artistica", u"expresar lo que las palabras no alcanzan");
    (u"turismo", u"cambiar de ambiente ayuda a ganar perspectiva") ].

Definition _connect_hobby (hobbies : list str) (product : Product) : str :=
  let product_text :=
    lower (nombre product ++ u" " ++ subcategoria product) in
  match List.find (fun hobby => isin (lower hobby) product_text) hobbies with
  | Some hobby =>
    u"aprovechando tu gusto por " ++ lower hobby ++ u", te recomendamos "
      ++ nombre product
  | None =>
    match hobbies with
    | hobby0 :: _ =>
      u"combinando tu interés en " ++ lower hobby0
        ++ u" con algo nuevo, te sugerimos " ++ nombre product
    | [] => u"te recomendamos " ++ nombre product
    end
  end.

Definition _get_benefit (activity_types : list str) : str :=
  match List.find (fun at_ => dict_has ACTIVITY_BENEFITS at_)
                  activity_types with
  | Some at_ => dict_get ACTIVITY_BENEFITS at_ empty
  | None => empty
  end.

(** The closing [if len(message) > 500] block of [generate]. *)
Definition truncate (message : str) : str :=
  if (500 <? Z.of_nat (length message))%Z then
    let last_period := rfind 46%N (slice_to message 497) in
    if (300 <? last_period)%Z
    then slice_to message (last_period + 1)
    else slice_to message 497 ++ u"..."
  else message.

(** [EmpathicMessageGenerator.generate]; [rnd] is the draw of
    [random.choice]. *)
Definition generate (rnd : nat) (profile : UserProfile)
    (situation : Situation) (recommendations : list Recommendation) : str :=
  match recommendations with
  | [] => name profile ++ u", estamos buscando las mejores opciones para ti."
  | top_rec :: _ =>
    let sit_phrases := dict_get CONFRONTATION (type situation) [] in
    let confrontation :=
      dict_get sit_phrases (subtype situation)
        (dict_get sit_phrases (u"general") (u"enfrentar este momento")) in
    let calm_options :=
      dict_get CALMING (type situation) [u"Lo que sientes es válido."] in
    let calming := choice rnd calm_options in
    let hobby_phrase := _connect_hobby (hobbies profile) (product top_rec) in
    let benefit := _get_benefit (activity_types (product top_rec)) in
    let message :=
      name profile ++ u", sé que hoy te toca " ++ confrontation ++ u". "
        ++ calming ++ u" Por eso, " ++ hobby_phrase in
    let message :=
      match benefit with
      | [] => message
      | _ :: _ => message ++ u" — " ++ benefit ++ u"."
      end in
    let message :=
      match goals profile with
      | goal0 :: _ =>
        if (Z.of_nat (length message) <? 420)%Z
        then message ++ u" Un paso hacia " ++ lower goal0 ++ u"."
        else message
      | [] => message
      end in
    truncate message
  end.

End Model.

(** ** The score in closed form

    The quantities below name the parts of the score; the theorems
    relate them to [score_product]. *)

Section Components.
Variable lower : str -> str.

(** The entry's traits that are in the situation's beneficial set
    ([matching_types] in the loop). *)
Definition matching_types (config : Config) (product : Product) : list str :=
  List.filter (fun at_ => list_has at_ (beneficial config))
              (activity_types product).

(** Whether some trait of the entry is in the avoid set. *)
Definition in_avoid (config : Config) (product : Product) : bool :=
  existsb (fun at_ => list_has at_ (avoid config)) (activity_types product).

(** The keywords selected by the loop ([matching_kw]): the lower-cased
    keyword occurs in the lower-cased name. *)
Definition matching_kw (config : Config) (product : Product) : list str :=
  List.filter (fun kw => isin (lower kw) (lower (nombre product)))
              (keywords config).

(** The situation keywords that occur, as they are, in the lower-cased
    name. *)
Definition keywords_in_name (config : Config) (product : Product)
    : list str :=
  List.filter (fun kw => isin kw (lower (nombre product))) (keywords config).

(** The hobbies whose lower-cased text occurs in the lower-cased name or
    subcategory. *)
Definition matching_hobbies (profile : UserProfile) (product : Product)
    : list str :=
  List.filter
    (fun hobby =>
       isin (lower hobby) (lower (nombre product))
       || isin (lower hobby) (lower (subcategoria product)))
    (hobbies profile).

Definition trait_points (config : Config) (product : Product) : Z :=
  30 * Z.of_nat (length (matching_types config product)).

Definition avoid_penalty (config : Config) (product : Product) : Z :=
  if in_avoid config product then 50 else 0.

Definition keyword_points (kws : list str) : Z :=
  15 * Z.of_nat (length kws).

Definition promotion_points (product : Product) : Z :=
  if promocion product then 5 else 0.

Definition hobby_points (profile : UserProfile) (product : Product) : Z :=
  10 * Z.of_nat (length (matching_hobbies profile product)).

(** Keyword, promotion and hobby points together; [kws] is the list of
    matching keywords. *)
Definition bonus_points (kws : list str) (profile : UserProfile)
    (product : Product) : Z :=
  keyword_points kws + promotion_points product
  + hobby_points profile product.

Definition score_of (kws : list str) (profile : UserProfile)
    (config : Config) (product : Product) : Z :=
  trait_points config product - avoid_penalty config product
  + bonus_points kws profile product.

Definition trait_reason (first : str) : str :=
  u"Actividad de tipo '" ++ first ++ u"' ayuda en tu situación".

Definition hobby_reason (hobby : str) : str :=
  u"Conecta con tu interés en " ++ hobby.

Definition reasons_of (kws : list str) (profile : UserProfile)
    (config : Config) (product : Product) : list str :=
  match matching_types config product with
  | [] => []
  | first :: _ => [trait_reason first]
  end
  ++ match kws with
     | [] => []
     | _ :: _ => [u"Incluye: " ++ join (u", ") (slice_to kws 2)]
     end
  ++ (if promocion product then [u"En promoción"] else [])
  ++ List.map hobby_reason (matching_hobbies profile product).

(** The [Recommendation] the loop builds for a product. *)
Definition rate (profile : UserProfile) (config : Config)
    (product : Product) : Recommendation :=
  {| product := product;
     score := (score_product lower profile config product).1;
     reasons := (score_product lower profile config product).2 |}.

(** The positively scored entries, in catalog order. *)
Definition positives (products : list Product) (profile : UserProfile)
    (config : Config) : list Recommendation :=
  List.filter (fun r => (0 <? score r)%Z)
              (List.map (rate profile config) products).

(** The traits the tagger can assign, and the configurations the
    knowledge base can return. *)
Definition tagger_traits : list str := ACTIVITY_KEYWORDS.*1 ++ [u"general"].

Definition known_configs : list Config :=
  no_signal :: SITUATION_CONFIG.*2.

(** [lower] leaves the keywords of the knowledge base unchanged: they
    are written in lower case. *)
Definition lower_fixes_keywords : Prop :=
  Forall (fun kw => lower kw = kw)
         (concat (List.map (fun entry => keywords entry.2) SITUATION_CONFIG)).

End Components.

(** ** Orchestrator: [BeHumanRecommender] *)

Module BeHumanRecommender.

(** The dictionaries of the result, one field per key: the value of
    ["product"], an element of ["recommendations"], the value of
    ["context"], and the result itself. *)
Record ProductInfo := {
  info_id : str;
  info_nombre : str;
  info_categoria : str;
  info_subcategoria : str;
  info_precio_desde : Z;
  info_url : str;
  info_imagen_url : str;
  info_promocion : bool;
  info_activity_types : list str
}.

Record RecommendationInfo := {
  rec_product : ProductInfo;
  rec_score : Z;
  rec_reasons : list str
}.

Record ContextInfo := {
  profile_name : str;
  profile_age : Z;
  context_hobbies : list str;
  context_goals : list str;
  situation_type : str;
  situation_subtype : str;
  situation_context : str
}.

Record Result := {
  result_message : str;
  message_length : nat;
  recommendations : list RecommendationInfo;
  result_context : ContextInfo
}.

Definition format (r : Recommendation) : RecommendationInfo :=
  {| rec_product :=
       {| info_id := id (product r);
          info_nombre := nombre (product r);
          info_categoria := categoria_principal (product r);
          info_subcategoria := subcategoria (product r);
          info_precio_desde := precio_desde (product r);
          info_url := url (product r);
          info_imagen_url := imagen_url (product r);
          info_promocion := promocion (product r);
          info_activity_types := activity_types (product r) |};
     rec_score := score r;
     rec_reasons := reasons r |}.

Section Pipeline.
Variable lower : str -> str.

(** [BeHumanRecommender.recommend]; [products] is the catalog of
    [self.engine] and [rnd] the draw of the message generator. *)
Definition recommend (products : list Product) (rnd : nat)
    (profile : UserProfile) (situation : Situation) (top_n : Z) : Result :=
  let recs := recommend lower products profile situation top_n in
  let message := generate lower rnd profile situation recs in
  {| result_message := message;
     message_length := length message;
     recommendations := List.map format recs;
     result_context :=
       {| profile_name := name profile;
          profile_age := age profile;
          context_hobbies := hobbies profile;
          context_goals := goals profile;
          situation_type := type situation;
          situation_subtype := subtype situation;
          situation_context := context situation |} |}.

End Pipeline.

End BeHumanRecommender.

(** ** HR workflow: [hr_workflow.py] *)

Module HRWorkflow.

Import BeHumanRecommender.

(** A card, one field per key.  The uplift is
    [round(min(30.0, max(3.0, score / 5.0)), 1)]: a fifth of an integer
    score has one decimal digit, so the percentage is kept exactly as a
    number of tenths. *)
Record Card := {
  card_product : ProductInfo;
  title : str;
  subtitle : str;
  explanation : str;
  estimated_productivity_uplift_tenths : Z;
  card_score : Z
}.

(** The notification of [hr_accept], one field per key. *)
Record Intervention := {
  intervention_title : str;
  intervention_url : str;
  intervention_uplift_tenths : Z
}.

Record EmployeeCard := {
  to_employee : bool;
  anonymous : bool;
  employee_message : str;
  intervention : Intervention
}.

(** The card built in one iteration of the loop of
    [create_hr_cards]. *)
Definition make_card (rec : RecommendationInfo) : Card :=
  let title := info_nombre (rec_product rec) in
  let subtitle :=
    info_categoria (rec_product rec) ++ u" · "
      ++ info_subcategoria (rec_product rec) in
  let reasons := rec_reasons rec in
  let uplift := Z.min 300 (Z.max 30 (2 * rec_score rec)) in
  {| card_product := rec_product rec;
     title := title;
     subtitle := subtitle;
     explanation :=
       u"Esta opción ayuda porque "
         ++ match reasons with
            | reason0 :: _ => reason0
            | [] => u"encaja con la situación"
            end
         ++ u"; " ++ u"favorece bienestar y puede reducir ausentismo.";
     estimated_productivity_uplift_tenths := uplift;
     card_score := rec_score rec |}.

(** The loop of [create_hr_cards] over the remaining recommendations,
    with the set [used] and the list [cards]; it stops at two cards. *)
Fixpoint cards_loop (recs : list RecommendationInfo) (used : gset str)
    (cards : list Card) : list Card :=
  match recs with
  | [] => cards
  | rec :: rest =>
    let pid := info_id (rec_product rec) in
    if decide (pid ∈ used) then cards_loop rest used cards
    else
      let used := {[ pid ]} ∪ used in
      let cards := cards ++ [make_card rec] in
      if 2 <=? length cards then cards else cards_loop rest used cards
  end.

Section Workflow.
Variable lower : str -> str.

Definition create_hr_cards (products : list Product) (rnd : nat)
    (profile : UserProfile) (situation : Situation) : list Card :=
  let result := recommend lower products rnd profile situation 4 in
  let recs := recommendations result in
  cards_loop recs ∅ [].

Definition hr_accept (products : list Product) (rnd : nat)
    (profile : UserProfile) (situation : Situation) (accepted_card : Card)
    : EmployeeCard :=
  let product_info := card_product accepted_card in
  let result := recommend lower products rnd profile situation 3 in
  let message := result_message result in
  {| to_employee := true;
     anonymous := true;
     employee_message :=
       u"Hemos recibido una notificación anónima sobre tu situación. "
         ++ message ++ u" "
         ++ u"RRHH ha aprobado una intervención que podría ayudarte. Si deseas más detalles, "
         ++ u"puedes responder a este mensaje y te conectaremos con el equipo de bienestar.";
     intervention :=
       {| intervention_title := info_nombre product_info;
          intervention_url := info_url product_info;
          intervention_uplift_tenths :=
            estimated_productivity_uplift_tenths accepted_card |} |}.

End Workflow.

End HRWorkflow.

(** ** The stand-alone message generator: [empathic_message.py] *)

Module EmpathicMessage.

Record UserProfile := {
  name : str;
  age : Z;
  gender : str;
  hobbies : list str;
  goals : list str
}.

Record Situation := {
  type : str;
  subtype : str;
  context : str
}.

(** The field [activity_name] is the attribute [name] of [Activity]. *)
Record Activity := {
  activity_name : str;
  category : str;
  benefit : str
}.

Definition SITUATIONS : list (str * list (str * str)) :=
  [ (u"perdida_familiar",
     [ (u"padres", u"enfrentarte a la pérdida de tus padres");
       (u"pareja", u"atravesar la pérdida de tu compañero/a de vida");
       (u"hijo", u"sobrellevar la pérdida más difícil que existe");
       (u"hermano", u"procesar la partida de tu hermano/a");
       (u"general", u"enfrentar la partida de alguien que amabas") ]);
    (u"ruptura_amorosa",
     [ (u"reciente", u"procesar el fin de una relación importante");
       (u"larga", u"cerrar un capítulo significativo de tu vida");
       (u"general", u"sanar después de una ruptura") ]);
    (u"ansiedad",
     [ (u"laboral", u"manejar la presión que el trabajo pone sobre ti");
       (u"social", u"navegar el peso de las interacciones sociales");
       (u"general", u"lidiar con pensamientos que no te dan tregua") ]);
    (u"soledad",
     [ (u"mudanza", u"construir conexiones en un lugar nuevo");
       (u"aislamiento", u"romper el ciclo de aislamiento");
       (u"general", u"encontrar tu lugar entre otros") ]);
    (u"estres_laboral",
     [ (u"burnout", u"recuperarte del agotamiento profesional");
       (u"presion", u"sostener el peso de múltiples responsabilidades");
       (u"general", u"encontrar equilibrio entre trabajo y vida") ]);
    (u"duelo",
     [ (u"reciente", u"atravesar los primeros momentos del duelo");
       (u"prolongado", u"continuar tu camino mientras honras la memoria");
       (u"general", u"procesar una pérdida profunda") ]) ].

Definition CALMING : list (str * list str) :=
  [ (u"perdida_familiar",
     [ u"Este dolor es parte de haber amado profundamente.";
       u"No hay tiempo correcto para sanar, solo el tuyo.";
       u"Cada día que enfrentas es un acto de valentía." ]);
    (u"ruptura_amorosa",
     [ u"Lo que sientes ahora no es permanente.";
       u"El vacío actual dejará espacio para algo nuevo.";
       u"Mereces tiempo para reconstruirte." ]);
    (u"ansiedad",
     [ u"Tu mente trabaja de más tratando de protegerte.";
       u"La calma es una habilidad que se entrena.";
       u"Pequeños momentos de paz se acumulan." ]);
    (u"soledad",
     [ u"Buscar conexión es señal de fortaleza.";
       u"Las mejores amistades empiezan con un primer paso.";
       u"Tu presencia tiene valor aunque no lo sientas." ]);
    (u"estres_laboral",
     [ u"Tu valor no se mide en horas trabajadas.";
       u"Descansar es parte del trabajo bien hecho.";
       u"Nadie funciona bien con el tanque vacío." ]);
    (u"duelo",
     [ u"El duelo no es algo que superar, sino integrar.";
       u"Honrar lo que perdiste también es vivir.";
       u"No tienes que estar bien, solo tienes que seguir." ]) ].

Definition HOBBY_CONNECTIONS : list (str * list str) :=
  [ (u"lectura", [u"club de lectura"; u"literatura"; u"libros"]);
    (u"música", [u"música"; u"concierto"; u"melodía"]);
    (u"arte", [u"arte"; u"pintura"; u"creatividad"; u"taller"]);
    (u"deportes", [u"ejercicio"; u"deporte"; u"natación"]);
    (u"naturaleza", [u"naturaleza"; u"caminata"; u"ecológica"]);
    (u"yoga", [u"yoga"; u"meditación"; u"mindfulness"]);
    (u"jardinería", [u"jardín"; u"naturaleza"; u"plantas"]);
    (u"caminar", [u"caminata"; u"senderismo"; u"paseo"]);
    (u"cocina", [u"cocina"; u"gastronomía"; u"culinario"]);
    (u"tejido", [u"taller"; u"manualidades"; u"artesanía"]) ].

Section Generator.
Variable lower : str -> str.

(** [exceeds last_period limit] is the float comparison
    [last_period > limit * 0.6]. *)
Variable exceeds : Z -> Z -> bool.

Definition _connect_hobby_activity (hobbies : list str) (activity : Activity)
    : str :=
  match hobbies with
  | [] => u"te recomendamos " ++ lower (activity_name activity)
  | hobby0 :: _ =>
    let activity_lower :=
      lower (activity_name activity ++ u" " ++ category activity) in
    match List.find
            (fun hobby =>
               let hobby_lower := lower hobby in
               let keywords :=
                 dict_get HOBBY_CONNECTIONS hobby_lower [hobby_lower] in
               existsb (fun kw => isin kw activity_lower) keywords)
            hobbies with
    | Some hobby =>
      u"aprovechando tu gusto por " ++ lower hobby ++ u", te recomendamos "
        ++ lower (activity_name activity)
    | None =>
      u"combinando tu interés en " ++ lower hobby0
        ++ u" con algo nuevo, te sugerimos " ++ lower (activity_name activity)
    end
  end.

Definition _trim_to_limit (message : str) (limit : Z) : str :=
  if (Z.of_nat (length message) <=? limit)%Z then message
  else
    let truncated := slice_to message (limit - 3) in
    let last_period := rfind 46%N truncated in
    if exceeds last_period limit
    then slice_to truncated (last_period + 1)
    else
      let last_space := rfind 32%N truncated in
      slice_to truncated last_space ++ u"...".

(** [EmpathicMessageGenerator.generate] of [empathic_message.py];
    [rnd] is the draw of [random.choice]. *)
Definition generate (rnd : nat) (profile : UserProfile)
    (situation : Situation) (activity : Activity) : str :=
  let sit_phrases := dict_get SITUATIONS (type situation) [] in
  let confrontation :=
    dict_get sit_phrases (subtype situation)
      (dict_get sit_phrases (u"general")
                (u"enfrentar este momento difícil")) in
  let calm_phrases :=
    dict_get CALMING (type situation) [u"Lo que sientes es válido."] in
  let calming := choice rnd calm_phrases in
  let hobby_phrase := _connect_hobby_activity (hobbies profile) activity in
  let message :=
    name profile ++ u", sé que hoy te toca " ++ confrontation ++ u". "
      ++ calming ++ u" " in
  let message := message ++ u"Por eso, " ++ hobby_phrase in
  let message :=
    match benefit activity with
    | [] => message
    | _ :: _ => message ++ u"— " ++ benefit activity ++ u"."
    end in
  let message :=
    match goals profile with
    | goal0 :: _ =>
      if (Z.of_nat (length message) <? 420)%Z
      then message ++ u" Un paso hacia " ++ lower goal0 ++ u"."
      else message
    | [] => message
    end in
  if (500 <? Z.of_nat (length message))%Z
  then _trim_to_limit message 500
  else message.

End Generator.

End EmpathicMessage.

(** ** Concrete inputs used to run the model *)

Definition example_situation : Situation :=
  {| type := u"perdida_familiar"; subtype := u"padres";
     context := u"Acaba de perder a sus padres por enfermedad" |}.

Definition ricardo : UserProfile :=
  {| user_id := u"001"; name := u"Ricardo"; age := 59;
     gender := u"masculino";
     hobbies := [u"lectura"; u"jardinería"; u"caminar"];
     goals := [u"fortalecer relaciones personales";
               u"aprovechar el tiempo"] |}.

(** A profile whose name has 500 characters. *)
Definition long_name_profile : UserProfile :=
  {| user_id := u"002"; name := repeat 97%N 500; age := 30;
     gender := u"femenino"; hobbies := []; goals := [] |}.

(** Raw catalog entries as the JSON file gives them. *)
Definition raw_entry (ident nombre_ : option str) (subcat descr : str)
    (promo : bool) : RawProduct :=
  {| raw_id := ident;
     raw_nombre := nombre_;
     raw_categoria_principal := Some (u"Bienestar");
     raw_subcategoria := Some subcat;
     raw_precio := Some (PrecioDict (Some 45000%Z));
     raw_url := None;
     raw_imagen_url := None;
     raw_promocion := Some promo;
     raw_descripcion := Some descr |}.

Definition raw_caminata : RawProduct :=
  raw_entry (Some (u"p1")) (Some (u"Caminata Ecológica")) (u"Turismo")
            (u"Recorrido guiado") false.

Definition raw_spa : RawProduct :=
  raw_entry (Some (u"p2")) (Some (u"Spa y descanso")) (u"Relajación")
            (u"Circuito de aguas") false.

Definition raw_yoga : RawProduct :=
  raw_entry (Some (u"p3")) (Some (u"Yoga grupal")) (u"Clases")
            (u"Sesiones semanales") true.

(** An entry without the key [nombre]. *)
Definition raw_without_name : RawProduct :=
  raw_entry (Some (u"p4")) None (u"Relajación") (u"Jornada de spa") true.

(** An entry without the key [id]. *)
Definition raw_without_id : RawProduct :=
  raw_entry None (Some (u"Piscina")) (u"Deportes") (u"Carril libre") false.

Definition example_catalog : list Product :=
  _load_products lower_latin1 (Some [raw_caminata; raw_spa; raw_yoga]).

Definition malformed_catalog : list Product :=
  _load_products lower_latin1 (Some [raw_without_name; raw_without_id]).

(** A product carrying a trait of the avoid set of [perdida_familiar],
    on promotion. *)
Definition torneo : Product :=
  {| id := u"p9"; nombre := u"Torneo relámpago";
     categoria_principal := u"Deportes"; subcategoria := u"Torneos";
     precio_desde := 20000; url := empty; imagen_url := empty;
     promocion := true; descripcion := None;
     activity_types := [u"competitivo"]; situation_tags := [] |}.

(** A situation type that the knowledge base does not have. *)
Definition unknown_situation : Situation :=
  {| type := u"mudanza"; subtype := u"reciente";
     context := u"Cambio de ciudad" |}.

(** Two profiles that differ by one hobby. *)
Definition reader : UserProfile :=
  {| user_id := u"003"; name := u"Ana"; age := 41; gender := u"femenino";
     hobbies := [u"lectura"; u"cocina"]; goals := [] |}.

Definition reader_with_spa : UserProfile :=
  {| user_id := u"003"; name := u"Ana"; age := 41; gender := u"femenino";
     hobbies := [u"lectura"; u"Spa"; u"cocina"]; goals := [] |}.

(** A text of 600 characters without a period or a space. *)
Definition long_text : str := repeat 97%N 600.

(** The comparison [last_period > limit * 0.6] at the only limit the
    module uses, 500, where [limit * 0.6] is the float 300.0. *)
Definition exceeds_at_500 (last_period limit : Z) : bool :=
  (300 <? last_period)%Z.

(** ** Python string and slice facts *)

Lemma startswith_spec (p s : str) :
  startswith p s = true <-> exists post, s = p ++ post.
Proof.
  revert s. induction p as [|a p IH]; intros s; simpl.
  - split; [intros _; by exists s | done].
  - destruct s as [|b s].
    + split; [done | intros [post Hpost]; discriminate].
    + rewrite andb_true_iff, N.eqb_eq, IH. split.
      * intros [-> [post ->]]. by exists post.
      * intros [post Hpost]. injection Hpost as -> ->. eauto.
Qed.

Lemma isin_spec (needle hay : str) :
  isin needle hay = true <-> exists pre post, hay = pre ++ needle ++ post.
Proof.
  induction hay as [|c hay IH].
  - simpl. rewrite orb_false_r, startswith_spec. split.
    + intros [post Hpost]. by exists [], post.
    + intros (pre & post & Heq). symmetry in Heq.
      apply app_eq_nil in Heq as [_ Heq].
      apply app_eq_nil in Heq as [-> _]. by exists [].
  - cbn [isin]. rewrite orb_true_iff, startswith_spec, IH. split.
    + intros [[post Hpost] | (pre & post & ->)].
      * by exists [], post.
      * by exists (c :: pre), post.
    + intros ([|c' pre] & post & Heq).
      * left. by exists post.
      * right. injection Heq as _ ->. eauto.
Qed.

Lemma length_slice_to_nonneg {A} (l : list A) (n : Z) :
  (0 <= n)%Z -> (Z.of_nat (length (slice_to l n)) <= n)%Z.
Proof.
  intros Hn. unfold slice_to.
  destruct (Z.leb_spec 0 n); [|lia]. rewrite length_take. lia.
Qed.

Lemma slice_to_nonneg {A} (l : list A) (n : Z) :
  (0 <= n)%Z -> slice_to l n = take (Z.to_nat n) l.
Proof. intros Hn. unfold slice_to. by destruct (Z.leb_spec 0 n); [|lia]. Qed.

Lemma slice_to_neg {A} (l : list A) (n : Z) :
  (n < 0)%Z -> slice_to l n = take (length l - Z.to_nat (- n)) l.
Proof.
  intros Hn. unfold slice_to. destruct (Z.leb_spec 0 n); [lia|].
  f_equal. lia.
Qed.

Lemma rfind_bounds (c : char) (s : str) :
  (-1 <= rfind c s < Z.of_nat (length s))%Z.
Proof.
  induction s as [|x s IH]; simpl; [lia|].
  destruct (Z.leb_spec 0 (rfind c s)); [lia|].
  destruct (x =? c)%N; lia.
Qed.

(** ** The message generator *)

Section GeneratorFacts.
Variable lower : str -> str.

Lemma length_truncate (message : str) : length (truncate message) <= 500.
Proof.
  unfold truncate.
  destruct (Z.ltb_spec 500 (Z.of_nat (length message))) as [Hlong|Hshort];
    [|lia].
  pose proof (rfind_bounds 46%N (slice_to message 497)) as [_ Hlast].
  pose proof (length_slice_to_nonneg message 497 ltac:(lia)) as Hcut.
  destruct (Z.ltb_spec 300 (rfind 46%N (slice_to message 497))) as [Hp|Hp].
  - pose proof (length_slice_to_nonneg message
                  (rfind 46%N (slice_to message 497) + 1) ltac:(lia)).
    lia.
  - rewrite length_app. cbn [length]. lia.
Qed.

(** With at least one recommendation the message goes through the
    closing truncation and stays within 500 characters. *)
Lemma generate_bounded_nonempty rnd profile situation top_rec rest :
  length (generate lower rnd profile situation (top_rec :: rest)) <= 500.
Proof. cbn [generate]. apply length_truncate. Qed.

(** C1 (fails on the code): with no recommendations [generate] returns
    the fallback sentence before reaching the truncation, so a name of
    500 characters gives a message of 548 characters. *)
Theorem generate_fallback_exceeds_500 rnd situation :
  length (generate lower rnd long_name_profile situation []) = 548
  /\ ~ length (generate lower rnd long_name_profile situation []) <= 500.
Proof.
  assert (length (generate lower rnd long_name_profile situation []) = 548)
    as Hlen by (vm_compute; reflexivity).
  split; [exact Hlen|]. rewrite Hlen.
  apply Nat.lt_nge, Nat.ltb_lt. vm_compute. reflexivity.
Qed.

(** C5: on an empty catalog [recommend] returns the empty list, and on
    an empty list of recommendations [generate] returns the fallback
    sentence, which starts with, hence contains, the profile's name. *)
Theorem empty_catalog_fallback rnd profile situation top_n :
  recommend lower [] profile situation top_n = []
  /\ generate lower rnd profile situation []
     = name profile ++ u", estamos buscando las mejores opciones para ti."
  /\ isin (name profile) (generate lower rnd profile situation []) = true.
Proof.
  split; [reflexivity|]. cbn [generate]. split; [reflexivity|].
  apply isin_spec.
  exists [], (u", estamos buscando las mejores opciones para ti.").
  reflexivity.
Qed.

End GeneratorFacts.

(** ** The tagger *)

(** Tagging reads the name, the categories and the description, and
    writes none of them. *)
Lemma tag_product_inputs lower (product : Product) :
  let tagged := tag_product lower product in
  id tagged = id product
  /\ nombre tagged = nombre product
  /\ categoria_principal tagged = categoria_principal product
  /\ subcategoria tagged = subcategoria product
  /\ precio_desde tagged = precio_desde product
  /\ url tagged = url product
  /\ imagen_url tagged = imagen_url product
  /\ promocion tagged = promocion product
  /\ descripcion tagged = descripcion product.
Proof. repeat split. Qed.

(** C6: tagging is idempotent: tagging a tagged product gives the same
    product, in particular the same activity types and the same
    situation tags. *)
Theorem tag_product_idempotent lower (product : Product) :
  tag_product lower (tag_product lower product) = tag_product lower product
  /\ activity_types (tag_product lower (tag_product lower product))
     = activity_types (tag_product lower product)
  /\ situation_tags (tag_product lower (tag_product lower product))
     = situation_tags (tag_product lower product).
Proof.
  assert (tag_product lower (tag_product lower product)
          = tag_product lower product) as Hidem.
  { pose proof (tag_product_inputs lower product)
      as (_ & Hn & Hc & Hs & _ & _ & _ & _ & Hd).
    unfold tag_product at 1. cbv zeta in Hn, Hc, Hs, Hd.
    rewrite Hn, Hc, Hs, Hd. reflexivity. }
  by rewrite Hidem.
Qed.

Lemma filter_keys_subseteq {V} (f : str * V -> bool) (d : list (str * V)) k :
  k ∈ (List.filter f d).*1 -> k ∈ d.*1.
Proof.
  induction d as [|[k' v] d IH]; [done|]. cbn [List.filter].
  destruct (f (k', v)); cbn [fmap list_fmap fst].
  - rewrite !elem_of_cons. intros [->|Hin]; [by left | right; by apply IH].
  - intros Hin. right. by apply IH.
Qed.

Lemma tag_product_traits lower product at_ :
  at_ ∈ activity_types (tag_product lower product) -> at_ ∈ tagger_traits.
Proof.
  cbn [activity_types tag_product]. unfold tagger_traits.
  match goal with
  | |- context [List.filter ?f ACTIVITY_KEYWORDS] =>
    pose proof (filter_keys_subseteq f ACTIVITY_KEYWORDS) as Hsub;
    destruct ((List.filter f ACTIVITY_KEYWORDS).*1) as [|a l]
  end.
  - intros Hin. apply elem_of_app. by right.
  - intros Hin. apply elem_of_app. left. by apply Hsub.
Qed.

Lemma dict_get_cases {V} (d : list (str * V)) k (default : V) :
  dict_get d k default ∈ default :: d.*2.
Proof.
  induction d as [|[k' v] d IH]; cbn [dict_get fmap list_fmap snd].
  - by left.
  - destruct (decide (k = k')); [right; by left|].
    apply elem_of_cons in IH as [->|IH]; [by left | by do 2 right].
Qed.

Lemma get_config_known situation_type :
  get_config situation_type ∈ known_configs.
Proof. apply dict_get_cases. Qed.

(** No trait the tagger assigns is in an avoid set of the knowledge
    base: on a loaded catalog the penalty branch of the scoring loop is
    never taken. *)
Lemma tagged_never_avoided lower situation_type product :
  in_avoid (get_config situation_type) (tag_product lower product) = false.
Proof.
  assert (forallb (fun config =>
                     forallb (fun at_ => negb (list_has at_ (avoid config)))
                             tagger_traits)
                  known_configs = true) as Hdisjoint
    by (vm_compute; reflexivity).
  rewrite forallb_forall in Hdisjoint.
  specialize (Hdisjoint (get_config situation_type)).
  rewrite <- list_elem_of_In, forallb_forall in Hdisjoint.
  specialize (Hdisjoint (get_config_known situation_type)).
  apply not_true_iff_false. unfold in_avoid.
  rewrite existsb_exists. intros (at_ & Hin & Hhas).
  apply list_elem_of_In, tag_product_traits, list_elem_of_In in Hin.
  apply Hdisjoint in Hin. by rewrite Hhas in Hin.
Qed.

(** ** The scoring loop *)

Section EngineFacts.
Variable lower : str -> str.

(** The hobby loop adds 10 points and one reason per matching hobby. *)
Lemma hobby_loop (product : Product) (hs : list str) (s : Z)
    (rs : list str) :
  let hit hobby :=
    isin (lower hobby) (lower (nombre product))
    || isin (lower hobby) (lower (subcategoria product)) in
  fold_left
    (fun '(score, reasons) hobby =>
       if hit hobby
       then ((score + 10)%Z, reasons ++ [u"Conecta con tu interés en " ++ hobby])
       else (score, reasons))
    hs (s, rs)
  = ((s + 10 * Z.of_nat (length (List.filter hit hs)))%Z,
     rs ++ List.map hobby_reason (List.filter hit hs)).
Proof.
  intros hit. revert s rs. induction hs as [|h hs IH]; intros s rs.
  - cbn. f_equal; [lia | by rewrite app_nil_r].
  - cbn [fold_left List.filter]. destruct (hit h); rewrite IH.
    + cbn [length List.map]. rewrite <- app_assoc. f_equal. lia.
    + reflexivity.
Qed.

(** [score_product] in closed form. *)
Lemma score_product_closed profile config product :
  score_product lower profile config product
  = (score_of lower (matching_kw lower config product) profile config product,
     reasons_of lower (matching_kw lower config product) profile config
                product).
Proof.
  unfold score_product, score_of, reasons_of, trait_points, avoid_penalty,
    bonus_points, keyword_points, promotion_points, hobby_points,
    matching_hobbies, in_avoid.
  fold (matching_types config product). fold (matching_kw lower config product).
  destruct (matching_types config product) as [|first mt];
    destruct (existsb _ (activity_types product));
    destruct (matching_kw lower config product) as [|kw kws];
    destruct (promocion product);
    rewrite hobby_loop; cbn [length app]; f_equal; lia.
Qed.

Lemma matching_kw_stated config product :
  (forall kw, kw ∈ keywords config -> lower kw = kw) ->
  matching_kw lower config product = keywords_in_name lower config product.
Proof.
  intros Hfix. unfold matching_kw, keywords_in_name.
  induction (keywords config) as [|kw kws IH]; [done|].
  cbn [List.filter]. rewrite (Hfix kw) by left.
  rewrite IH; [done|]. intros kw' Hin. apply Hfix. by right.
Qed.

(** Every configuration the knowledge base returns has keywords that
    [lower] leaves unchanged. *)
Lemma get_config_keywords situation_type kw :
  lower_fixes_keywords lower ->
  kw ∈ keywords (get_config situation_type) -> lower kw = kw.
Proof.
  unfold lower_fixes_keywords, get_config. intros Hfix.
  induction SITUATION_CONFIG as [|[k config] table IH]; cbn [dict_get].
  - intros Hin. cbn in Hin. by apply not_elem_of_nil in Hin.
  - cbn [List.map concat snd] in Hfix. apply Forall_app in Hfix as [Hc Ht].
    destruct (decide (situation_type = k)); [|by apply IH].
    intros Hin. by apply (proj1 (Forall_forall _ _) Hc).
Qed.

(** The loop appends the rated product exactly when its score is
    positive. *)
Lemma scored_positives products profile config :
  scored lower products profile config
  = positives lower products profile config.
Proof.
  unfold scored, positives.
  enough (forall acc,
    fold_left
      (fun recommendations product =>
         let '(score, reasons) := score_product lower profile config product in
         if (0 <? score)%Z
         then recommendations
                ++ [{| product := product; score := score;
                       reasons := reasons |}]
         else recommendations)
      products acc
    = acc ++ List.filter (fun r => (0 <? score r)%Z)
                         (List.map (rate lower profile config) products))
    as Hgen by apply (Hgen []).
  induction products as [|p products IH]; intros acc.
  - cbn. by rewrite app_nil_r.
  - cbn [fold_left List.map List.filter]. rewrite IH.
    assert (rate lower profile config p
            = {| product := p;
                 score := (score_product lower profile config p).1;
                 reasons := (score_product lower profile config p).2 |})
      as -> by reflexivity.
    destruct (score_product lower profile config p) as [sc rs].
    cbn [fst snd score]. destruct (0 <? sc)%Z; [|done].
    by rewrite <- app_assoc.
Qed.

Lemma elem_of_positives r products profile config :
  r ∈ positives lower products profile config ->
  (0 < score r)%Z
  /\ exists p, p ∈ products /\ r = rate lower profile config p.
Proof.
  unfold positives. rewrite list_elem_of_In, filter_In, in_map_iff.
  intros [(p & <- & Hp) Hpos]. split; [by apply Z.ltb_lt|].
  exists p. by rewrite list_elem_of_In.
Qed.

(** ** Sorting *)

Lemma insert_desc_perm r l : insert_desc r l ≡ₚ r :: l.
Proof.
  induction l as [|x l IH]; [done|]. cbn [insert_desc].
  destruct (score x <=? score r)%Z; [done|].
  rewrite IH. apply Permutation_swap.
Qed.

Lemma sort_desc_perm l : sort_desc l ≡ₚ l.
Proof.
  induction l as [|x l IH]; [done|]. cbn [sort_desc foldr].
  rewrite insert_desc_perm. by f_equiv.
Qed.

Lemma elem_of_slice_to {A} (x : A) (l : list A) (n : Z) :
  x ∈ slice_to l n -> x ∈ l.
Proof.
  unfold slice_to.
  destruct (0 <=? n)%Z; intros Hin;
    match type of Hin with
    | _ ∈ take ?k _ => rewrite <- (take_drop k l)
    end; apply elem_of_app; by left.
Qed.

(** Every returned recommendation is the rating of a catalog product
    and has a positive score. *)
Lemma elem_of_recommend r products profile situation top_n :
  r ∈ recommend lower products profile situation top_n ->
  (0 < score r)%Z
  /\ exists p, p ∈ products
              /\ r = rate lower profile (get_config (type situation)) p.
Proof.
  unfold recommend. destruct products as [|p0 products].
  - intros Hin. by apply not_elem_of_nil in Hin.
  - intros Hin%elem_of_slice_to. rewrite sort_desc_perm in Hin.
    rewrite scored_positives in Hin. by apply elem_of_positives.
Qed.

Lemma insert_desc_sorted r l :
  StronglySorted (fun a b => (score b <= score a)%Z) l ->
  StronglySorted (fun a b => (score b <= score a)%Z) (insert_desc r l).
Proof.
  induction 1 as [|x l Hsorted IH Hx]; cbn [insert_desc].
  - repeat constructor.
  - destruct (Z.leb_spec (score x) (score r)) as [Hle|Hgt].
    + constructor; [by constructor|]. constructor; [done|].
      eapply Forall_impl; [exact Hx|]. cbn. intros; lia.
    + constructor; [done|]. rewrite insert_desc_perm.
      constructor; [lia | done].
Qed.

Lemma sort_desc_sorted l :
  StronglySorted (fun a b => (score b <= score a)%Z) (sort_desc l).
Proof.
  induction l as [|x l IH]; [constructor|].
  cbn [sort_desc foldr]. by apply insert_desc_sorted.
Qed.

(** Inserting keeps the new element ahead of the entries with the same
    score, and the entries of each score in their order. *)
Lemma insert_desc_stable s r l :
  List.filter (fun x => (score x =? s)%Z) (insert_desc r l)
  = List.filter (fun x => (score x =? s)%Z) (r :: l).
Proof.
  induction l as [|x l IH]; [done|]. cbn [insert_desc].
  destruct (Z.leb_spec (score x) (score r)) as [Hle|Hgt]; [done|].
  cbn [List.filter] in *. rewrite IH.
  destruct (Z.eqb_spec (score r) s), (Z.eqb_spec (score x) s); (done || lia).
Qed.

Lemma sort_desc_stable s l :
  List.filter (fun x => (score x =? s)%Z) (sort_desc l)
  = List.filter (fun x => (score x =? s)%Z) l.
Proof.
  induction l as [|x l IH]; [done|].
  cbn [sort_desc foldr]. rewrite insert_desc_stable.
  cbn [List.filter]. fold (sort_desc l). by rewrite IH.
Qed.

(** [recommend] is the slice of the sorted positives, also on the empty
    catalog. *)
Lemma recommend_ranked products profile situation top_n :
  recommend lower products profile situation top_n
  = slice_to (sort_desc (positives lower products profile
                                   (get_config (type situation)))) top_n.
Proof.
  unfold recommend. destruct products as [|p products].
  - unfold slice_to. cbn. by destruct (0 <=? top_n)%Z; rewrite take_nil.
  - by rewrite scored_positives.
Qed.

(** ** Loading *)

Lemma load_loop_keeps raws seen prods p :
  p ∈ prods -> p ∈ (fold_left (load_step lower) raws (seen, prods)).2.
Proof.
  revert seen prods. induction raws as [|raw raws IH]; intros seen prods Hp;
    [done|].
  cbn [fold_left load_step].
  destruct (decide (raw_id raw ∈ seen)); apply IH; [done|].
  apply elem_of_app. by left.
Qed.

Lemma load_loop_first raws seen prods i raw :
  raws !! i = Some raw ->
  raw_id raw ∉ seen ->
  (forall j raw', j < i -> raws !! j = Some raw' -> raw_id raw' <> raw_id raw) ->
  tag_product lower (product_of_raw raw)
    ∈ (fold_left (load_step lower) raws (seen, prods)).2.
Proof.
  revert seen prods i.
  induction raws as [|raw0 raws IH]; intros seen prods i Hi Hseen Hfirst;
    [done|].
  cbn [fold_left load_step]. destruct i as [|i].
  - cbn in Hi. simplify_eq. destruct (decide (raw_id raw ∈ seen)); [done|].
    apply load_loop_keeps, elem_of_app. right. by apply list_elem_of_singleton.
  - assert (raw_id raw0 <> raw_id raw) as Hne
        by (apply (Hfirst 0); [lia | done]).
    assert (forall j raw', j < i -> raws !! j = Some raw' ->
                           raw_id raw' <> raw_id raw) as Hfirst'
        by (intros j raw' Hj Hraw'; apply (Hfirst (S j)); [lia | done]).
    destruct (decide (raw_id raw0 ∈ seen)); apply (IH _ _ i); try done.
    intros [Heq%elem_of_singleton | Hin]%elem_of_union; [by apply Hne | done].
Qed.

End EngineFacts.

(** ** Properties of [recommend] *)

Section RecommendTheorems.
Variable lower : str -> str.

(** C2: the score of an entry starts at 0 and is 30 points per trait of
    the entry in the beneficial set, minus one flat 50 if some trait is
    in the avoid set, plus 15 per situation keyword occurring in the
    lower-cased name, plus 5 if the entry is promotional, plus 10 per
    hobby whose lower-cased text occurs in the lower-cased name or
    subcategory; a trait match records one reason, first in the list,
    naming the first matching trait; and each returned recommendation
    carries that score. *)
Theorem recommend_score_formula products profile situation top_n :
  lower_fixes_keywords lower ->
  let config := get_config (type situation) in
  (forall entry,
     (score_product lower profile config entry).1
     = (30 * Z.of_nat (length (matching_types config entry))
        - (if in_avoid config entry then 50 else 0)
        + 15 * Z.of_nat (length (keywords_in_name lower config entry))
        + (if promocion entry then 5 else 0)
        + 10 * Z.of_nat (length (matching_hobbies lower profile entry)))%Z
     /\ (forall first rest,
           matching_types config entry = first :: rest ->
           head (score_product lower profile config entry).2
           = Some (trait_reason first)))
  /\ Forall (fun r =>
               score r
               = score_of lower (keywords_in_name lower config (product r))
                          profile config (product r))
            (recommend lower products profile situation top_n).
Proof.
  intros Hfix config.
  assert (forall entry,
            matching_kw lower config entry
            = keywords_in_name lower config entry) as Hkw.
  { intros entry. apply matching_kw_stated. intros kw.
    by apply get_config_keywords. }
  split.
  - intros entry. rewrite score_product_closed, Hkw. cbn [fst snd]. split.
    + unfold score_of, trait_points, avoid_penalty, bonus_points,
        keyword_points, promotion_points, hobby_points. lia.
    + intros first rest Hmt. unfold reasons_of. by rewrite Hmt.
  - apply Forall_forall. intros r Hr.
    apply elem_of_recommend in Hr as [_ (p & _ & ->)].
    cbn [score product rate]. fold config.
    by rewrite score_product_closed, Hkw.
Qed.

(** C3: no returned recommendation has a score less than or equal to
    0. *)
Theorem recommend_excludes_nonpositive products profile situation top_n :
  Forall (fun r => ~ (score r <= 0)%Z)
         (recommend lower products profile situation top_n).
Proof.
  apply Forall_forall. intros r Hr.
  apply elem_of_recommend in Hr as [Hpos _]. lia.
Qed.

(** C4 (as the code has it): for a non-negative [top_n], [recommend]
    returns the first [top_n] entries of the positively scored entries
    sorted by score, highest first, entries of equal score keeping
    their catalog order; its length is at most [top_n]. *)
Theorem recommend_top_n products profile situation top_n :
  (0 <= top_n)%Z ->
  let candidates :=
    positives lower products profile (get_config (type situation)) in
  let ranked := sort_desc candidates in
  recommend lower products profile situation top_n
  = take (Z.to_nat top_n) ranked
  /\ ranked ≡ₚ candidates
  /\ StronglySorted (fun a b => (score b <= score a)%Z) ranked
  /\ (forall s,
        List.filter (fun r => (score r =? s)%Z) ranked
        = List.filter (fun r => (score r =? s)%Z) candidates)
  /\ (Z.of_nat (length (recommend lower products profile situation top_n))
      <= top_n)%Z.
Proof.
  intros Htop candidates ranked. rewrite recommend_ranked.
  fold candidates. fold ranked.
  split; [by apply slice_to_nonneg|].
  split; [apply sort_desc_perm|].
  split; [apply sort_desc_sorted|].
  split; [intros s; apply sort_desc_stable|].
  by apply length_slice_to_nonneg.
Qed.

(** C7 (as the code has it): with a negative [top_n] the call raises
    nothing: the whole catalog is scored and the ranked list is
    returned without its last [-top_n] entries. *)
Theorem recommend_negative_top_n products profile situation top_n :
  (top_n < 0)%Z ->
  let ranked :=
    sort_desc (positives lower products profile
                         (get_config (type situation))) in
  recommend_call lower products profile situation top_n
  = Returned (take (length ranked - Z.to_nat (- top_n)) ranked).
Proof.
  intros Htop ranked. unfold recommend_call. f_equal.
  rewrite recommend_ranked. by apply slice_to_neg.
Qed.

(** C9: for an entry with a trait in the avoid set and none in the
    beneficial set, the net score of the trait matching (the trait
    points less the penalty, before the keyword, promotion and hobby
    points are added) is at most -50; the final score is that net score
    plus those bonus points, which are never negative; and when the
    bonus points total less than 50 no returned recommendation is for
    that entry. *)
Theorem avoided_entry_excluded products profile situation top_n entry :
  let config := get_config (type situation) in
  let net := (trait_points config entry - avoid_penalty config entry)%Z in
  let bonuses :=
    bonus_points lower (matching_kw lower config entry) profile entry in
  in_avoid config entry = true ->
  matching_types config entry = [] ->
  (net <= -50)%Z
  /\ (score_product lower profile config entry).1 = (net + bonuses)%Z
  /\ (0 <= bonuses)%Z
  /\ ((bonuses < 50)%Z ->
      Forall (fun r => product r <> entry)
             (recommend lower products profile situation top_n)).
Proof.
  intros config net bonuses Havoid Hnone.
  assert (net = (-50)%Z) as Hnet.
  { unfold net, trait_points, avoid_penalty. rewrite Havoid, Hnone.
    cbn [length]. lia. }
  assert ((score_product lower profile config entry).1 = (net + bonuses)%Z)
    as Hscore.
  { rewrite score_product_closed. cbn [fst]. unfold score_of.
    fold net. fold bonuses. reflexivity. }
  split; [lia|]. split; [exact Hscore|]. split.
  - unfold bonuses, bonus_points, keyword_points, promotion_points,
      hobby_points. destruct (promocion entry); lia.
  - intros Hlow. apply Forall_forall. intros r Hr Heq.
    apply elem_of_recommend in Hr as [Hpos (p & _ & ->)].
    cbn [product score rate] in Heq, Hpos. subst p. fold config in Hpos.
    lia.
Qed.

(** C10: every returned recommendation has at least one reason. *)
Theorem recommend_reasons_nonempty products profile situation top_n :
  Forall (fun r => reasons r <> [])
         (recommend lower products profile situation top_n).
Proof.
  apply Forall_forall. intros r Hr Hempty.
  apply elem_of_recommend in Hr as [Hpos (p & _ & ->)].
  cbn [score reasons rate] in Hpos, Hempty.
  rewrite score_product_closed in Hpos, Hempty. cbn [fst snd] in Hpos, Hempty.
  unfold reasons_of in Hempty. unfold score_of, trait_points, avoid_penalty,
    bonus_points, keyword_points, promotion_points, hobby_points in Hpos.
  destruct (matching_types _ p); [|done].
  destruct (matching_kw lower _ p); [|done].
  destruct (promocion p); [done|].
  destruct (matching_hobbies lower profile p); [|done].
  cbn [length] in Hpos. destruct (in_avoid _ p); lia.
Qed.

(** C8 (as the code has it): loading discards an entry only when an
    earlier entry carries the same identifier, a missing identifier
    counting as one; any other entry is tagged and loaded, the empty
    string standing for a missing name or identifier. *)
Theorem load_first_occurrence raws i raw :
  raws !! i = Some raw ->
  (forall j raw', j < i -> raws !! j = Some raw' -> raw_id raw' <> raw_id raw) ->
  let loaded := tag_product lower (product_of_raw raw) in
  loaded ∈ _load_products lower (Some raws)
  /\ (raw_nombre raw = None -> nombre loaded = empty)
  /\ (raw_id raw = None -> id loaded = empty).
Proof.
  intros Hi Hfirst loaded. split.
  - unfold _load_products. eapply load_loop_first; [exact Hi | | exact Hfirst].
    apply not_elem_of_empty.
  - split; intros Hmissing; subst loaded; cbn [nombre id tag_product];
      unfold product_of_raw; cbn [nombre id]; by rewrite Hmissing.
Qed.

End RecommendTheorems.

(** ** The model at concrete inputs *)

(** The three example entries are tagged, scored and ranked. *)
Example recommend_example :
  List.map (fun r => (nombre (product r), activity_types (product r),
                      score r, length (reasons r)))
           (recommend lower_latin1 example_catalog ricardo example_situation 3)
  = [ (u"Spa y descanso",
       [u"agua"; u"mindfulness"; u"baja_estimulacion"], 120%Z, 2);
      (u"Caminata Ecológica", [u"naturaleza"; u"mindfulness"], 75%Z, 2);
      (u"Yoga grupal", [u"social"; u"mindfulness"], 35%Z, 2) ].
Proof. vm_compute. reflexivity. Qed.

(** The profile and situation of the module's header: the message for
    Ricardo has 299 characters and ends with the goal clause. *)
Example generate_example :
  let message :=
    generate lower_latin1 0 ricardo example_situation
             (recommend lower_latin1 example_catalog ricardo
                        example_situation 3) in
  length message = 299
  /\ isin (u"Ricardo, sé que hoy te toca enfrentarte a la pérdida de tus padres. ")
          message = true
  /\ isin (u" Un paso hacia fortalecer relaciones personales.") message = true.
Proof. vm_compute. repeat split. Qed.

Lemma lower_latin1_fixes_keywords : lower_fixes_keywords lower_latin1.
Proof. unfold lower_fixes_keywords. vm_compute. repeat constructor. Qed.

Lemma recommend_score_formula_witness :
  lower_fixes_keywords lower_latin1
  /\ Forall (fun r =>
               score r
               = score_of lower_latin1
                   (keywords_in_name lower_latin1
                      (get_config (type example_situation)) (product r))
                   ricardo (get_config (type example_situation)) (product r))
            (recommend lower_latin1 example_catalog ricardo example_situation 3).
Proof.
  split; [exact lower_latin1_fixes_keywords|].
  exact (proj2 (recommend_score_formula lower_latin1 example_catalog ricardo
                  example_situation 3 lower_latin1_fixes_keywords)).
Defined.

Lemma recommend_top_n_witness :
  (0 <= 2)%Z
  /\ (Z.of_nat (length (recommend lower_latin1 example_catalog ricardo
                                  example_situation 2)) <= 2)%Z.
Proof.
  split; [lia|].
  pose proof (recommend_top_n lower_latin1 example_catalog ricardo
                example_situation 2 ltac:(lia)) as (_ & _ & _ & _ & Hlen).
  exact Hlen.
Defined.

(** C4 fails for a negative bound: with [top_n = -1] two of the three
    positively scored entries are returned. *)
Lemma recommend_negative_bound_length :
  length (recommend lower_latin1 example_catalog ricardo example_situation
                    (-1)) = 2
  /\ ~ (Z.of_nat (length (recommend lower_latin1 example_catalog ricardo
                                    example_situation (-1))) <= -1)%Z.
Proof.
  assert (length (recommend lower_latin1 example_catalog ricardo
                            example_situation (-1)) = 2) as Hlen
    by (vm_compute; reflexivity).
  split; [exact Hlen|]. rewrite Hlen. lia.
Qed.

Lemma recommend_negative_top_n_witness :
  (-1 < 0)%Z
  /\ recommend_call lower_latin1 example_catalog ricardo example_situation (-1)
     = Returned
         (take (length (sort_desc (positives lower_latin1 example_catalog
                                     ricardo
                                     (get_config (type example_situation))))
                - Z.to_nat (- -1))
               (sort_desc (positives lower_latin1 example_catalog ricardo
                             (get_config (type example_situation))))).
Proof.
  split; [lia|].
  apply (recommend_negative_top_n lower_latin1 example_catalog ricardo
           example_situation (-1)). lia.
Defined.

(** C7 fails: the call with [top_n = -1] returns a list, of the two
    best entries, and raises nothing. *)
Lemma recommend_negative_bound_returns :
  (exists value,
     recommend_call lower_latin1 example_catalog ricardo example_situation (-1)
     = Returned value
     /\ List.map (fun r => (nombre (product r), score r)) value
        = [(u"Spa y descanso", 120%Z); (u"Caminata Ecológica", 75%Z)])
  /\ forall error,
       recommend_call lower_latin1 example_catalog ricardo example_situation
                      (-1) <> Raised error.
Proof.
  split; [|done]. eexists. split; [reflexivity|]. vm_compute. reflexivity.
Qed.

(** C8 fails: the entry without a name and the entry without an
    identifier are both loaded, and both are recommended. *)
Lemma malformed_entries_recommended :
  raw_nombre raw_without_name = None
  /\ raw_id raw_without_id = None
  /\ _load_products lower_latin1 (Some [raw_without_name; raw_without_id])
     = [tag_product lower_latin1 (product_of_raw raw_without_name);
        tag_product lower_latin1 (product_of_raw raw_without_id)]
  /\ List.map (fun r => (id (product r), nombre (product r), score r))
              (recommend lower_latin1 malformed_catalog ricardo
                         example_situation 3)
     = [(u"p4", empty, 95%Z); (empty, u"Piscina", 60%Z)].
Proof.
  split; [reflexivity|]. split; [reflexivity|].
  split; vm_compute; reflexivity.
Qed.

Lemma load_first_occurrence_witness :
  [raw_without_name; raw_without_id] !! 1 = Some raw_without_id
  /\ tag_product lower_latin1 (product_of_raw raw_without_id)
       ∈ _load_products lower_latin1 (Some [raw_without_name; raw_without_id])
  /\ id (tag_product lower_latin1 (product_of_raw raw_without_id)) = empty.
Proof.
  assert (forall j raw', j < 1 ->
            [raw_without_name; raw_without_id] !! j = Some raw' ->
            raw_id raw' <> raw_id raw_without_id) as Hfirst.
  { intros [|j] raw' Hj Hraw'; [|lia]. cbn in Hraw'. by simplify_eq. }
  pose proof (load_first_occurrence lower_latin1
                [raw_without_name; raw_without_id] 1 raw_without_id
                eq_refl Hfirst) as (Hin & _ & Hid).
  split; [reflexivity|]. split; [exact Hin | exact (Hid eq_refl)].
Defined.

(** A promotional entry with a trait of the avoid set and no beneficial
    trait: 5 bonus points on a trait net score of -50 give a final
    score of -45. *)
Lemma avoided_promotional_entry_score :
  in_avoid (get_config (type example_situation)) torneo = true
  /\ matching_types (get_config (type example_situation)) torneo = []
  /\ bonus_points lower_latin1
       (matching_kw lower_latin1 (get_config (type example_situation)) torneo)
       ricardo torneo = 5%Z
  /\ (score_product lower_latin1 ricardo
                    (get_config (type example_situation)) torneo).1 = (-45)%Z
  /\ ~ ((score_product lower_latin1 ricardo
                       (get_config (type example_situation)) torneo).1
        <= -50)%Z.
Proof.
  assert ((score_product lower_latin1 ricardo
             (get_config (type example_situation)) torneo).1 = (-45)%Z)
    as Hscore by (vm_compute; reflexivity).
  rewrite Hscore.
  repeat split; try (vm_compute; reflexivity). lia.
Qed.

Lemma avoided_entry_excluded_witness :
  in_avoid (get_config (type example_situation)) torneo = true
  /\ matching_types (get_config (type example_situation)) torneo = []
  /\ (trait_points (get_config (type example_situation)) torneo
      - avoid_penalty (get_config (type example_situation)) torneo <= -50)%Z
  /\ (score_product lower_latin1 ricardo
                    (get_config (type example_situation)) torneo).1
     = (trait_points (get_config (type example_situation)) torneo
        - avoid_penalty (get_config (type example_situation)) torneo
        + bonus_points lower_latin1
            (matching_kw lower_latin1
               (get_config (type example_situation)) torneo)
            ricardo torneo)%Z.
Proof.
  assert (in_avoid (get_config (type example_situation)) torneo = true)
    as Havoid by (vm_compute; reflexivity).
  assert (matching_types (get_config (type example_situation)) torneo = [])
    as Hnone by (vm_compute; reflexivity).
  split; [exact Havoid|]. split; [exact Hnone|].
  pose proof (avoided_entry_excluded lower_latin1 (torneo :: example_catalog)
                ricardo example_situation 3 torneo Havoid Hnone)
    as (Hnet & Hscore & _).
  split; [exact Hnet | exact Hscore].
Defined.

(** ** Further properties of the message generator *)

Lemma rfind_found (c : char) (s : str) :
  (0 <= rfind c s)%Z -> s !! Z.to_nat (rfind c s) = Some c.
Proof.
  induction s as [|x s IH]; cbn [rfind]; [lia|].
  destruct (Z.leb_spec 0 (rfind c s)) as [Hk|Hk].
  - intros _. rewrite Z2Nat.inj_add by lia.
    rewrite Nat.add_1_r. cbn. by apply IH.
  - destruct (N.eqb_spec x c) as [->|Hne]; [done | lia].
Qed.

Section GeneratorShape.
Variable lower : str -> str.

(** With a recommendation, the message handed to the closing truncation
    starts with the name. *)
Lemma generate_message_form rnd profile situation top_rec rest :
  exists body,
    generate lower rnd profile situation (top_rec :: rest)
    = truncate (name profile ++ body).
Proof.
  cbn [generate].
  destruct (_get_benefit (activity_types (product top_rec))) as [|b bs];
    destruct (goals profile) as [|goal0 gs];
    try match goal with
        | |- context [if ?c then _ else _] => destruct c
        end;
    rewrite <- ?app_assoc; eexists; reflexivity.
Qed.

(** X1: the message has at most 500 characters whenever there is a
    recommendation or the name has at most 452 characters. *)
Theorem generate_bounded rnd profile situation recommendations :
  recommendations <> [] \/ length (name profile) <= 452 ->
  length (generate lower rnd profile situation recommendations) <= 500.
Proof.
  destruct recommendations as [|top_rec rest].
  - intros [Hne|Hname]; [done|]. cbn [generate].
    rewrite length_app. cbn [length]. lia.
  - intros _. cbn [generate]. apply length_truncate.
Qed.

(** X2: a message of more than 500 characters is cut either to a prefix
    of 302 to 497 characters that ends with a period, or to its first
    497 characters followed by three dots, 500 characters in all. *)
Theorem truncate_shape (message : str) :
  500 < length message ->
  (truncate message `prefix_of` message
   /\ last (truncate message) = Some 46%N
   /\ 302 <= length (truncate message) <= 497)
  \/ (truncate message = take 497 message ++ u"..."
      /\ length (truncate message) = 500).
Proof.
  intros Hlong. unfold truncate.
  destruct (Z.ltb_spec 500 (Z.of_nat (length message))) as [_|Hshort]; [|lia].
  rewrite (slice_to_nonneg message 497) by lia.
  change (Z.to_nat 497) with 497.
  pose proof (rfind_bounds 46%N (take 497 message)) as [_ Hlast].
  pose proof (rfind_found 46%N (take 497 message)) as Hfound.
  rewrite length_take in Hlast.
  destruct (Z.ltb_spec 300 (rfind 46%N (take 497 message))) as [Hp|Hp].
  - left. set (k := rfind 46%N (take 497 message)) in *.
    rewrite slice_to_nonneg by lia.
    assert (Z.to_nat (k + 1) = S (Z.to_nat k)) as -> by lia.
    specialize (Hfound ltac:(lia)).
    assert (message !! Z.to_nat k = Some 46%N) as Hdot
      by (rewrite <- (lookup_take_lt message 497) by lia; exact Hfound).
    assert (length (take (S (Z.to_nat k)) message) = S (Z.to_nat k)) as Hlen
      by (rewrite length_take; lia).
    split; [apply prefix_take|]. split; [|lia].
    rewrite last_lookup, Hlen. cbn [pred].
    rewrite lookup_take_lt by lia. exact Hdot.
  - right. split; [done|]. rewrite length_app, length_take.
    cbn [length]. lia.
Qed.

Lemma prefix_is_take {A} (t l : list A) :
  t `prefix_of` l -> t = take (length t) l.
Proof. intros [k ->]. by rewrite take_app_length. Qed.

Lemma truncate_keeps_prefix (start body : str) :
  length start <= 301 -> start `prefix_of` truncate (start ++ body).
Proof.
  intros Hstart.
  destruct (decide (500 < length (start ++ body))) as [Hlong|Hshort].
  - destruct (truncate_shape (start ++ body) Hlong)
      as [(Hpre & _ & Hlen) | [-> _]].
    + apply prefix_is_take in Hpre. rewrite Hpre.
      rewrite take_app_ge by lia. by eexists.
    + rewrite take_app_ge by lia. rewrite <- app_assoc. by eexists.
  - unfold truncate.
    destruct (Z.ltb_spec 500 (Z.of_nat (length (start ++ body)))); [lia|].
    by eexists.
Qed.

(** X3: a name of at most 301 characters always opens the message. *)
Theorem generate_starts_with_name rnd profile situation recommendations :
  length (name profile) <= 301 ->
  name profile `prefix_of`
    generate lower rnd profile situation recommendations.
Proof.
  intros Hname. destruct recommendations as [|top_rec rest].
  - cbn [generate]. by eexists.
  - destruct (generate_message_form rnd profile situation top_rec rest)
      as [body ->].
    by apply truncate_keeps_prefix.
Qed.

End GeneratorShape.

(** ** Further properties of the knowledge base and the tagger *)

Lemma dict_get_missing {V} (d : list (str * V)) k (default : V) :
  k ∉ d.*1 -> dict_get d k default = default.
Proof.
  induction d as [|[k' v] d IH]; [done|].
  cbn [dict_get fmap list_fmap fst]. rewrite not_elem_of_cons.
  intros [Hne Hnot]. destruct (decide (k = k')); [done | by apply IH].
Qed.

Lemma dict_get_present {V} (d : list (str * V)) k v (default : V) :
  NoDup d.*1 -> (k, v) ∈ d -> dict_get d k default = v.
Proof.
  induction d as [|[k' v'] d IH]; intros Hnodup Hin;
    [by apply not_elem_of_nil in Hin|].
  cbn [dict_get]. cbn [fmap list_fmap fst] in Hnodup.
  apply NoDup_cons in Hnodup as [Hfresh Hnodup].
  apply elem_of_cons in Hin as [Heq|Hin].
  - injection Heq as -> ->. by destruct (decide (k' = k')).
  - destruct (decide (k = k')) as [->|Hne]; [|by apply IH].
    exfalso. apply Hfresh. apply list_elem_of_fmap. by exists (k', v).
Qed.

Lemma situation_keys_nodup : NoDup SITUATION_CONFIG.*1.
Proof. apply (bool_decide_unpack _). vm_compute. exact I. Qed.

(** The filter of the tagger picks its traits in table order. *)
Lemma filter_keys_sublist {V} (f : str * V -> bool) (d : list (str * V)) :
  (List.filter f d).*1 `sublist_of` d.*1.
Proof.
  induction d as [|[k v] d IH]; [constructor|]. cbn [List.filter].
  destruct (f (k, v)); cbn [fmap list_fmap fst]; by constructor.
Qed.

Section TaggerFacts.
Variable lower : str -> str.

(** The text the tagger searches, and the traits whose keywords occur
    in it. *)
Lemma activity_types_tagged product :
  let text :=
    lower (nombre product ++ u" " ++ categoria_principal product ++ u" "
           ++ subcategoria product ++ u" "
           ++ default empty (descripcion product)) in
  let found :=
    (List.filter (fun '(_, keywords) =>
                    existsb (fun kw => isin (lower kw) text) keywords)
                 ACTIVITY_KEYWORDS).*1 in
  activity_types (tag_product lower product)
  = match found with [] => [u"general"] | _ :: _ => found end
  /\ situation_tags (tag_product lower product) = _infer_situations found.
Proof. done. Qed.

(** X4: a tagged product has at least one trait; its traits are traits
    of the tagger's table in table order, without repetition, or the
    single trait [general]. *)
Theorem tag_product_activity_types product :
  let traits := activity_types (tag_product lower product) in
  traits <> []
  /\ traits `sublist_of` tagger_traits
  /\ NoDup traits
  /\ (u"general" ∈ traits -> traits = [u"general"]).
Proof.
  destruct (activity_types_tagged product) as [Htypes _].
  cbv zeta in Htypes |- *. rewrite Htypes. clear Htypes.
  match goal with
  | |- context [List.filter ?f ACTIVITY_KEYWORDS] =>
    pose proof (filter_keys_sublist f ACTIVITY_KEYWORDS) as Hsub;
    destruct ((List.filter f ACTIVITY_KEYWORDS).*1) as [|a l] eqn:Hfound
  end.
  - split; [done|]. unfold tagger_traits.
    split; [by apply sublist_inserts_l|].
    split; [apply NoDup_singleton | done].
  - assert (NoDup ACTIVITY_KEYWORDS.*1) as Hkeys
      by (apply (bool_decide_unpack _); vm_compute; exact I).
    assert (u"general" ∉ ACTIVITY_KEYWORDS.*1) as Hgeneral
      by (apply (bool_decide_unpack _); vm_compute; exact I).
    split; [done|]. unfold tagger_traits.
    split; [by apply sublist_inserts_r|].
    split; [by eapply sublist_NoDup|].
    intros Hin. exfalso. apply Hgeneral.
    by eapply elem_of_sublist.
Qed.

Lemma elem_of_infer_situations (types : list str) st :
  st ∈ _infer_situations types
  <-> exists config,
        (st, config) ∈ SITUATION_CONFIG
        /\ existsb (fun at_ => list_has at_ (beneficial config)) types = true.
Proof.
  unfold _infer_situations. rewrite list_elem_of_fmap. split.
  - intros ([st' config] & -> & Hin).
    apply list_elem_of_In, filter_In in Hin as [Hin Hhit].
    exists config. by rewrite list_elem_of_In.
  - intros (config & Hin & Hhit). exists (st, config). split; [done|].
    apply list_elem_of_In, filter_In. by rewrite <- list_elem_of_In.
Qed.

Lemma matching_types_nonempty config product :
  matching_types config product <> []
  <-> existsb (fun at_ => list_has at_ (beneficial config))
              (activity_types product) = true.
Proof.
  unfold matching_types.
  induction (activity_types product) as [|a l IH]; [done|].
  cbn [List.filter existsb]. destruct (list_has a (beneficial config)).
  - by split.
  - by rewrite orb_false_l.
Qed.

(** X5: the situation tags of a tagged product are exactly the
    situations for which [recommend] finds one of its traits
    beneficial. *)
Theorem situation_tags_match_scoring product st :
  st ∈ situation_tags (tag_product lower product)
  <-> matching_types (get_config st) (tag_product lower product) <> [].
Proof.
  destruct (activity_types_tagged product) as [Htypes Htags].
  cbv zeta in Htypes, Htags.
  rewrite matching_types_nonempty, Htypes, Htags, elem_of_infer_situations.
  clear Htypes Htags.
  match goal with
  | |- context [List.filter ?f ACTIVITY_KEYWORDS] =>
    generalize ((List.filter f ACTIVITY_KEYWORDS).*1)
  end.
  intros found.
  assert (forallb (fun config => negb (list_has (u"general") (beneficial config)))
                  known_configs = true) as Hgeneral
    by (vm_compute; reflexivity).
  rewrite forallb_forall in Hgeneral.
  specialize (Hgeneral (get_config st)).
  rewrite <- list_elem_of_In in Hgeneral.
  specialize (Hgeneral (get_config_known st)).
  apply negb_true_iff in Hgeneral.
  split.
  - intros (config & Hin & Hhit). unfold get_config.
    rewrite (dict_get_present _ _ config no_signal situation_keys_nodup Hin).
    destruct found; [done | exact Hhit].
  - intros Hhit. destruct found as [|a l].
    { cbn [existsb] in Hhit. by rewrite Hgeneral in Hhit. }
    destruct (decide (st ∈ SITUATION_CONFIG.*1)) as [Hkey|Hkey].
    + apply list_elem_of_fmap in Hkey as ([st' config] & -> & Hin).
      exists config. split; [done|]. cbn [fst] in Hhit.
      unfold get_config in Hhit.
      by rewrite (dict_get_present _ _ config no_signal
                    situation_keys_nodup Hin) in Hhit.
    + unfold get_config in Hhit. rewrite dict_get_missing in Hhit by done.
      cbn [beneficial no_signal] in Hhit. exfalso.
      clear -Hhit. induction (a :: l) as [|x xs IH]; [done|].
      cbn [existsb] in Hhit. by apply IH.
Qed.

(** X6: the benefit clause of a tagged product is missing exactly when
    its only trait is [general]. *)
Theorem benefit_of_tagged product :
  _get_benefit (activity_types (tag_product lower product)) = empty
  <-> activity_types (tag_product lower product) = [u"general"].
Proof.
  pose proof (tag_product_activity_types product) as (Hne & Hsub & _ & Hgen).
  cbv zeta in Hne, Hsub, Hgen.
  destruct (activity_types (tag_product lower product)) as [|a l]; [done|].
  assert (a ∈ tagger_traits) as Ha
    by (eapply elem_of_sublist; [by left | exact Hsub]).
  assert (forallb (fun at_ =>
                     bool_decide (at_ = u"general")
                     || (dict_has ACTIVITY_BENEFITS at_
                         && negb (bool_decide
                                    (dict_get ACTIVITY_BENEFITS at_ empty
                                     = empty))))
                  tagger_traits = true) as Htable
    by (vm_compute; reflexivity).
  rewrite forallb_forall in Htable. specialize (Htable a).
  rewrite <- list_elem_of_In in Htable. specialize (Htable Ha).
  apply orb_true_iff in Htable as [Hgeneral | Hbenefit].
  - apply bool_decide_eq_true in Hgeneral as ->.
    rewrite (Hgen ltac:(by left)). by split.
  - apply andb_true_iff in Hbenefit as [Hhas Hvalue].
    apply negb_true_iff, bool_decide_eq_false in Hvalue.
    unfold _get_benefit. cbn [List.find]. rewrite Hhas. split; [done|].
    intros Heq. injection Heq as -> ->. exfalso. revert Hhas.
    vm_compute. done.
Qed.

End TaggerFacts.

(** ** Further properties of loading and scoring *)

Section ScoringFacts.
Variable lower : str -> str.

(** The loop keeps the first entry of each identifier, in file order. *)
Lemma load_loop_kept raws seen prods :
  exists kept,
    kept `sublist_of` raws
    /\ NoDup (raw_id <$> kept)
    /\ (forall raw, raw ∈ kept -> raw_id raw ∉ seen)
    /\ (forall raw, raw ∈ raws ->
                    raw_id raw ∈ seen \/ raw_id raw ∈ raw_id <$> kept)
    /\ (fold_left (load_step lower) raws (seen, prods)).2
       = prods ++ ((fun raw => tag_product lower (product_of_raw raw))
                     <$> kept).
Proof.
  revert seen prods. induction raws as [|raw raws IH]; intros seen prods.
  - exists []. split; [constructor|]. split; [constructor|].
    split; [intros r Hin; by apply not_elem_of_nil in Hin|].
    split; [intros r Hin; by apply not_elem_of_nil in Hin|].
    cbn. by rewrite app_nil_r.
  - cbn [fold_left load_step].
    destruct (decide (raw_id raw ∈ seen)) as [Hseen|Hfresh].
    + destruct (IH seen prods) as (kept & Hsub & Hnodup & Hout & Hcover & Heq).
      exists kept. split; [by constructor|]. split; [done|].
      split; [done|]. split; [|done].
      intros raw' [->|Hin]%elem_of_cons; [by left | by apply Hcover].
    + destruct (IH ({[raw_id raw]} ∪ seen)
                   (prods ++ [tag_product lower (product_of_raw raw)]))
        as (kept & Hsub & Hnodup & Hout & Hcover & Heq).
      exists (raw :: kept). split; [by constructor|].
      split.
      { cbn [fmap list_fmap]. apply NoDup_cons. split; [|done].
        intros (raw' & Hid & Hin)%list_elem_of_fmap.
        apply (Hout raw' Hin). rewrite <- Hid.
        apply elem_of_union. left. by apply elem_of_singleton. }
      split.
      { intros raw' [->|Hin]%elem_of_cons; [done|].
        intros Hseen. apply (Hout raw' Hin). apply elem_of_union. by right. }
      split.
      { intros raw' [->|Hin]%elem_of_cons.
        - right. cbn [fmap list_fmap]. by left.
        - destruct (Hcover raw' Hin) as [[Hid%elem_of_singleton|Hs]%elem_of_union
                                        |Hk].
          + right. cbn [fmap list_fmap]. rewrite Hid. by left.
          + by left.
          + right. cbn [fmap list_fmap]. by right. }
      rewrite Heq. cbn [fmap list_fmap]. by rewrite <- app_assoc.
Qed.

(** X7: the loaded catalog is the tagging of a sub-sequence of the raw
    entries, in file order, holding exactly one entry per identifier
    value of the file (a missing identifier counting as one value); a
    missing file gives the empty catalog. *)
Theorem load_products_kept raws :
  _load_products lower None = []
  /\ exists kept,
       kept `sublist_of` raws
       /\ NoDup (raw_id <$> kept)
       /\ (forall raw, raw ∈ raws -> raw_id raw ∈ raw_id <$> kept)
       /\ _load_products lower (Some raws)
          = (fun raw => tag_product lower (product_of_raw raw)) <$> kept
       /\ length (_load_products lower (Some raws)) <= length raws.
Proof.
  split; [done|].
  destruct (load_loop_kept raws ∅ []) as (kept & Hsub & Hnodup & _ & Hcover & Heq).
  exists kept. split; [done|]. split; [done|]. split.
  - intros raw Hin. destruct (Hcover raw Hin) as [Hempty|Hk]; [|done].
    by apply not_elem_of_empty in Hempty.
  - unfold _load_products. rewrite Heq. cbn [app]. split; [done|].
    rewrite length_fmap. by apply sublist_length.
Qed.

Lemma elem_of_load_products file p :
  p ∈ _load_products lower file ->
  exists raw, p = tag_product lower (product_of_raw raw).
Proof.
  destruct file as [raws|]; [|by intros Hin; apply not_elem_of_nil in Hin].
  destruct (load_products_kept raws) as [_ (kept & _ & _ & _ & -> & _)].
  intros (raw & -> & _)%list_elem_of_fmap. by exists raw.
Qed.

(** X8: every score is a multiple of 5 and is at least -50. *)
Theorem score_multiple_of_5 profile config entry :
  (5 | (score_product lower profile config entry).1)%Z
  /\ (-50 <= (score_product lower profile config entry).1)%Z.
Proof.
  rewrite score_product_closed. cbn [fst].
  unfold score_of, trait_points, avoid_penalty, bonus_points, keyword_points,
    promotion_points, hobby_points.
  set (a := Z.of_nat (length (matching_types config entry))).
  set (c := Z.of_nat (length (matching_kw lower config entry))).
  set (e := Z.of_nat (length (matching_hobbies lower profile entry))).
  assert (0 <= a /\ 0 <= c /\ 0 <= e)%Z as (Ha & Hc & He) by lia.
  destruct (in_avoid config entry), (promocion entry); split; try lia.
  - exists (6 * a - 10 + 3 * c + 1 + 2 * e)%Z. lia.
  - exists (6 * a - 10 + 3 * c + 2 * e)%Z. lia.
  - exists (6 * a + 3 * c + 1 + 2 * e)%Z. lia.
  - exists (6 * a + 3 * c + 2 * e)%Z. lia.
Qed.

(** X9: on a loaded catalog the penalty is never applied, for any
    situation, and no score is negative. *)
Theorem loaded_catalog_never_penalised file profile situation_type :
  Forall (fun entry =>
            in_avoid (get_config situation_type) entry = false
            /\ (0 <= (score_product lower profile (get_config situation_type)
                                    entry).1)%Z)
         (_load_products lower file).
Proof.
  apply Forall_forall. intros entry [raw ->]%elem_of_load_products.
  pose proof (tagged_never_avoided lower situation_type (product_of_raw raw))
    as Havoid.
  split; [exact Havoid|].
  rewrite score_product_closed. cbn [fst].
  unfold score_of, trait_points, avoid_penalty, bonus_points, keyword_points,
    promotion_points, hobby_points.
  rewrite Havoid. destruct (promocion _); lia.
Qed.

(** X10: for a situation type that the knowledge base does not have,
    the configuration is the empty one and a score is made of the
    promotion and hobby points only. *)
Theorem unknown_situation_score profile situation entry :
  type situation ∉ SITUATION_CONFIG.*1 ->
  get_config (type situation) = no_signal
  /\ score_product lower profile (get_config (type situation)) entry
     = ((promotion_points entry + hobby_points lower profile entry)%Z,
        (if promocion entry then [u"En promoción"] else [])
          ++ List.map hobby_reason (matching_hobbies lower profile entry)).
Proof.
  intros Hunknown.
  assert (get_config (type situation) = no_signal) as Hconfig
    by (by apply dict_get_missing).
  split; [done|]. rewrite Hconfig, score_product_closed.
  unfold score_of, reasons_of, trait_points, avoid_penalty, bonus_points,
    keyword_points, matching_types, in_avoid, matching_kw.
  cbn [beneficial avoid keywords no_signal List.filter].
  assert (forall l, List.filter (fun at_ => list_has at_ []) l = []) as ->.
  { intros l. induction l as [|x l IH]; [done|]. cbn [List.filter].
    by rewrite IH. }
  assert (forall l, existsb (fun at_ => list_has at_ []) l = false) as ->.
  { intros l. induction l as [|x l IH]; [done|]. cbn [existsb].
    by rewrite IH. }
  cbn [length app]. f_equal; lia.
Qed.

(** X11: adding a hobby to a profile, anywhere in the list, adds 10
    points to an entry's score when the hobby occurs in the entry's
    name or subcategory and leaves the score unchanged otherwise; the
    score never decreases. *)
Theorem hobby_added_score profile profile' config entry before after hobby :
  hobbies profile = before ++ after ->
  hobbies profile' = before ++ hobby :: after ->
  let hit :=
    isin (lower hobby) (lower (nombre entry))
    || isin (lower hobby) (lower (subcategoria entry)) in
  (score_product lower profile' config entry).1
  = ((score_product lower profile config entry).1
     + (if hit then 10 else 0))%Z
  /\ ((score_product lower profile config entry).1
      <= (score_product lower profile' config entry).1)%Z.
Proof.
  intros Hold Hnew hit.
  assert ((score_product lower profile' config entry).1
          = ((score_product lower profile config entry).1
             + (if hit then 10 else 0))%Z) as Hscore.
  { rewrite !score_product_closed. cbn [fst].
    unfold score_of, bonus_points, hobby_points, matching_hobbies.
    rewrite Hold, Hnew, !List.filter_app. cbn [List.filter]. fold hit.
    rewrite !length_app. destruct hit; cbn [length]; lia. }
  split; [exact Hscore|]. rewrite Hscore. destruct hit; lia.
Qed.

(** X12: results for different bounds agree: for [0 <= m <= n] the
    result for [m] is the first [m] entries of the result for [n]. *)
Theorem recommend_prefix products profile situation m n :
  (0 <= m <= n)%Z ->
  recommend lower products profile situation m
  = take (Z.to_nat m) (recommend lower products profile situation n).
Proof.
  intros Hmn. rewrite !recommend_ranked, !slice_to_nonneg by lia.
  rewrite take_take. f_equal. lia.
Qed.

(** X13: the result is empty for a bound of 0 or of minus the number of
    positive entries or less, and is the whole ranking of the positive
    entries for a bound of at least their number. *)
Theorem recommend_extreme_bounds products profile situation top_n :
  let candidates :=
    positives lower products profile (get_config (type situation)) in
  ((top_n = 0 \/ top_n <= - Z.of_nat (length candidates))%Z ->
   recommend lower products profile situation top_n = [])
  /\ ((Z.of_nat (length candidates) <= top_n)%Z ->
      recommend lower products profile situation top_n = sort_desc candidates
      /\ recommend lower products profile situation top_n ≡ₚ candidates).
Proof.
  intros candidates. rewrite recommend_ranked. fold candidates.
  assert (length (sort_desc candidates) = length candidates) as Hlen
    by (by rewrite sort_desc_perm).
  split.
  - intros [->|Hneg]; [done|].
    destruct (decide (top_n = 0%Z)) as [->|Hnz]; [done|].
    rewrite slice_to_neg by lia.
    replace (length (sort_desc candidates) - Z.to_nat (- top_n)) with 0
      by lia.
    done.
  - intros Hall. rewrite slice_to_nonneg by lia.
    rewrite take_ge by lia. split; [done | apply sort_desc_perm].
Qed.

End ScoringFacts.

(** ** The orchestrator and the HR workflow *)

Lemma length_slice_to_le {A} (l : list A) (n : Z) :
  length (slice_to l n) <= length l.
Proof. unfold slice_to. destruct (0 <=? n)%Z; rewrite length_take; lia. Qed.

Section PipelineFacts.
Variable lower : str -> str.

(** A positive score comes with a reason. *)
Lemma rate_reasons_nonempty profile config p :
  (0 < score (rate lower profile config p))%Z ->
  reasons (rate lower profile config p) <> [].
Proof.
  cbn [score reasons rate]. rewrite score_product_closed. cbn [fst snd].
  unfold reasons_of, score_of, trait_points, avoid_penalty, bonus_points,
    keyword_points, promotion_points, hobby_points.
  intros Hpos Hempty.
  destruct (matching_types config p); [|done].
  destruct (matching_kw lower config p); [|done].
  destruct (promocion p); [done|].
  destruct (matching_hobbies lower profile p); [|done].
  cbn [length] in Hpos. destruct (in_avoid config p); lia.
Qed.

Lemma orchestrator_entries products rnd profile situation top_n :
  Forall (fun info => (0 < BeHumanRecommender.rec_score info)%Z /\ BeHumanRecommender.rec_reasons info <> [])
         (BeHumanRecommender.recommendations
            (BeHumanRecommender.recommend lower products rnd profile
                                          situation top_n)).
Proof.
  cbn [BeHumanRecommender.recommendations BeHumanRecommender.recommend].
  apply Forall_forall. intros info Hin.
  apply list_elem_of_In, in_map_iff in Hin as (r & <- & Hr).
  apply list_elem_of_In, elem_of_recommend in Hr as [Hpos (p & _ & ->)].
  cbn [BeHumanRecommender.format BeHumanRecommender.rec_score
         BeHumanRecommender.rec_reasons].
  split; [done | by apply rate_reasons_nonempty].
Qed.

(** X14: the orchestrator reports the length of its message; when it
    returns a recommendation the message has at most 500 characters and
    every returned entry has a positive score and a reason; when it
    returns none the message is the fallback sentence; for a
    non-negative bound it returns at most that many entries. *)
Theorem orchestrator_result products rnd profile situation top_n :
  let result :=
    BeHumanRecommender.recommend lower products rnd profile situation top_n in
  BeHumanRecommender.message_length result
  = length (BeHumanRecommender.result_message result)
  /\ (BeHumanRecommender.recommendations result <> [] ->
      BeHumanRecommender.message_length result <= 500)
  /\ (BeHumanRecommender.recommendations result = [] ->
      BeHumanRecommender.result_message result
      = name profile ++ u", estamos buscando las mejores opciones para ti.")
  /\ Forall (fun info => (0 < BeHumanRecommender.rec_score info)%Z /\ BeHumanRecommender.rec_reasons info <> [])
            (BeHumanRecommender.recommendations result)
  /\ ((0 <= top_n)%Z ->
      (Z.of_nat (length (BeHumanRecommender.recommendations result))
       <= top_n)%Z).
Proof.
  intros result. split; [done|].
  split; [|split; [|split; [apply orchestrator_entries|]]];
    subst result;
    cbn [BeHumanRecommender.recommendations BeHumanRecommender.recommend
           BeHumanRecommender.message_length
           BeHumanRecommender.result_message].
  - destruct (recommend lower products profile situation top_n)
      as [|top_rec rest]; [done|].
    intros _. apply generate_bounded_nonempty.
  - destruct (recommend lower products profile situation top_n)
      as [|top_rec rest]; [done|]. intros Hnil. discriminate Hnil.
  - intros Htop. rewrite length_map, recommend_ranked.
    by apply length_slice_to_nonneg.
Qed.

(** The loop of [create_hr_cards], started with fewer than two cards:
    it appends cards of remaining recommendations, in order, with
    identifiers that are new and pairwise different, up to two cards
    in all. *)
Lemma cards_loop_appends recs used cards :
  length cards < 2 ->
  exists taken,
    HRWorkflow.cards_loop recs used cards
    = cards ++ (HRWorkflow.make_card <$> taken)
    /\ taken `sublist_of` recs
    /\ length cards + length taken <= 2
    /\ NoDup ((fun rec => BeHumanRecommender.info_id (BeHumanRecommender.rec_product rec)) <$> taken)
    /\ (forall rec, rec ∈ taken -> BeHumanRecommender.info_id (BeHumanRecommender.rec_product rec) ∉ used)
    /\ (forall rec rest, recs = rec :: rest ->
                         BeHumanRecommender.info_id (BeHumanRecommender.rec_product rec) ∉ used ->
                         exists taken', taken = rec :: taken').
Proof.
  revert used cards. induction recs as [|rec recs IH]; intros used cards Hlen.
  - exists []. cbn. rewrite app_nil_r.
    repeat split; try constructor; try lia; try done.
    intros rec Hin. by apply not_elem_of_nil in Hin.
  - cbn [HRWorkflow.cards_loop].
    destruct (decide (BeHumanRecommender.info_id (BeHumanRecommender.rec_product rec) ∈ used)) as [Hused|Hnew].
    + destruct (IH used cards Hlen)
        as (taken & Heq & Hsub & Hcount & Hnodup & Hout & _).
      exists taken. repeat split; try done; [by constructor|].
      intros rec' rest Hcons Hfresh. by simplify_eq.
    + rewrite length_app. cbn [length].
      destruct (Nat.leb_spec 2 (length cards + 1)) as [Hfull|Hroom].
      * exists [rec]. cbn [fmap list_fmap length].
        repeat split; try done; try lia.
        -- constructor. apply sublist_nil_l.
        -- apply NoDup_singleton.
        -- intros rec' Hin%list_elem_of_singleton. by subst.
        -- intros rec' rest Hcons _. simplify_eq. by exists [].
      * destruct (IH ({[BeHumanRecommender.info_id (BeHumanRecommender.rec_product rec)]} ∪ used)
                     (cards ++ [HRWorkflow.make_card rec]))
          as (taken & Heq & Hsub & Hcount & Hnodup & Hout & _).
        { rewrite length_app. cbn [length]. lia. }
        exists (rec :: taken). rewrite Heq, <- app_assoc.
        rewrite length_app in Hcount. cbn [length] in Hcount |- *.
        repeat split; try done; try lia.
        -- by constructor.
        -- cbn [fmap list_fmap]. apply NoDup_cons. split; [|done].
           intros (rec' & Hid & Hin)%list_elem_of_fmap.
           apply (Hout rec' Hin). rewrite <- Hid.
           apply elem_of_union. left. by apply elem_of_singleton.
        -- intros rec' [->|Hin]%elem_of_cons; [done|].
           intros Hin'. apply (Hout rec' Hin). apply elem_of_union. by right.
        -- intros rec' rest Hcons _. simplify_eq. by exists taken.
Qed.

(** X15: [create_hr_cards] returns at most two cards, for entries of
    the orchestrator's top four, in ranking order and with pairwise
    different product identifiers; the first card is for the top
    recommendation; every card has a positive score and explains itself
    with the first reason of its recommendation, never with the stock
    phrase. *)
Theorem create_hr_cards_spec products rnd profile situation :
  let recs :=
    BeHumanRecommender.recommendations
      (BeHumanRecommender.recommend lower products rnd profile situation 4) in
  let cards :=
    HRWorkflow.create_hr_cards lower products rnd profile situation in
  exists taken,
    cards = HRWorkflow.make_card <$> taken
    /\ taken `sublist_of` recs
    /\ length cards <= 2
    /\ NoDup ((fun rec => BeHumanRecommender.info_id (BeHumanRecommender.rec_product rec)) <$> taken)
    /\ head taken = head recs
    /\ Forall (fun rec =>
                 (0 < HRWorkflow.card_score (HRWorkflow.make_card rec))%Z
                 /\ exists reason0 others,
                      BeHumanRecommender.rec_reasons rec = reason0 :: others
                      /\ HRWorkflow.explanation (HRWorkflow.make_card rec)
                         = u"Esta opción ayuda porque " ++ reason0
                             ++ u"; favorece bienestar y puede reducir ausentismo.")
              taken.
Proof.
  intros recs cards. subst cards. unfold HRWorkflow.create_hr_cards.
  fold recs.
  destruct (cards_loop_appends recs ∅ [] ltac:(cbn; lia))
    as (taken & Heq & Hsub & Hcount & Hnodup & _ & Hfirst).
  exists taken. rewrite Heq. cbn [app length] in Hcount |- *.
  split; [done|]. split; [done|].
  split; [by rewrite length_fmap|]. split; [done|]. split.
  - destruct recs as [|rec rest] eqn:Hrecs.
    + apply sublist_nil_r in Hsub. by subst.
    + destruct (Hfirst rec rest eq_refl (not_elem_of_empty _)) as [taken' ->].
      done.
  - apply Forall_forall. intros rec Hin.
    assert (rec ∈ recs) as Hrec by (by eapply elem_of_sublist).
    pose proof (orchestrator_entries products rnd profile situation 4) as Hall.
    rewrite Forall_forall in Hall. destruct (Hall rec Hrec) as [Hpos Hreason].
    split; [done|].
    destruct (BeHumanRecommender.rec_reasons rec) as [|reason0 others] eqn:Hreasons; [done|].
    exists reason0, others. split; [done|].
    cbn [HRWorkflow.explanation HRWorkflow.make_card]. by rewrite Hreasons.
Qed.

(** X16: the notification of [hr_accept] is flagged anonymous and
    carries the title and the link of the accepted card; its text is
    the fixed opening, the message generated for the orchestrator's top
    three, and the fixed closing; so with a name of at most 301
    characters the profile's name follows the opening. *)
Theorem hr_accept_notification products rnd profile situation accepted_card :
  let notification :=
    HRWorkflow.hr_accept lower products rnd profile situation accepted_card in
  let message :=
    generate lower rnd profile situation
             (recommend lower products profile situation 3) in
  HRWorkflow.anonymous notification = true
  /\ HRWorkflow.intervention_title (HRWorkflow.intervention notification)
     = BeHumanRecommender.info_nombre (HRWorkflow.card_product accepted_card)
  /\ HRWorkflow.intervention_url (HRWorkflow.intervention notification)
     = BeHumanRecommender.info_url (HRWorkflow.card_product accepted_card)
  /\ HRWorkflow.employee_message notification
     = u"Hemos recibido una notificación anónima sobre tu situación. "
         ++ message
         ++ u" RRHH ha aprobado una intervención que podría ayudarte. Si deseas más detalles, puedes responder a este mensaje y te conectaremos con el equipo de bienestar."
  /\ (length (name profile) <= 301 ->
      exists rest,
        HRWorkflow.employee_message notification
        = u"Hemos recibido una notificación anónima sobre tu situación. "
            ++ name profile ++ rest).
Proof.
  intros notification message.
  split; [done|]. split; [done|]. split; [done|].
  assert (HRWorkflow.employee_message notification
          = u"Hemos recibido una notificación anónima sobre tu situación. "
              ++ message
              ++ u" RRHH ha aprobado una intervención que podría ayudarte. Si deseas más detalles, puedes responder a este mensaje y te conectaremos con el equipo de bienestar.")
    as Htext.
  { subst notification message.
    cbn [HRWorkflow.employee_message HRWorkflow.hr_accept
           BeHumanRecommender.result_message BeHumanRecommender.recommend].
    do 2 f_equal. }
  split; [exact Htext|].
  intros Hname. rewrite Htext. subst message.
  destruct (generate_starts_with_name lower rnd profile situation
              (recommend lower products profile situation 3) Hname)
    as [tail ->].
  rewrite <- app_assoc. by eexists.
Qed.

End PipelineFacts.

(** ** The stand-alone generator *)

Section StandaloneFacts.
Variable lower : str -> str.
Variable exceeds : Z -> Z -> bool.

(** X17: for a limit of at least 3, [_trim_to_limit] returns at most
    [limit] characters, whatever the outcome of its float
    comparison. *)
Theorem trim_to_limit_bounded (message : str) (limit : Z) :
  (3 <= limit)%Z ->
  (Z.of_nat (length (EmpathicMessage._trim_to_limit exceeds message limit))
   <= limit)%Z.
Proof.
  intros Hlimit. unfold EmpathicMessage._trim_to_limit.
  destruct (Z.leb_spec (Z.of_nat (length message)) limit) as [Hfit|Hlong];
    [done|].
  pose proof (length_slice_to_nonneg message (limit - 3) ltac:(lia)) as Hcut.
  set (truncated := slice_to message (limit - 3)) in *.
  destruct (exceeds (rfind 46%N truncated) limit).
  - pose proof (length_slice_to_le truncated (rfind 46%N truncated + 1)). lia.
  - rewrite length_app. cbn [length].
    pose proof (length_slice_to_le truncated (rfind 32%N truncated)). lia.
Qed.

(** X18: the stand-alone generator never returns more than 500
    characters. *)
Theorem standalone_generate_bounded rnd profile situation activity :
  length (EmpathicMessage.generate lower exceeds rnd profile situation
                                   activity) <= 500.
Proof.
  unfold EmpathicMessage.generate. cbv zeta.
  match goal with
  | |- context [if (500 <? Z.of_nat (length ?m))%Z then _ else _] =>
    generalize m
  end.
  intros message.
  destruct (Z.ltb_spec 500 (Z.of_nat (length message))) as [Hlong|Hshort];
    [|lia].
  pose proof (trim_to_limit_bounded message 500 ltac:(lia)). lia.
Qed.

End StandaloneFacts.

(** ** The further properties at concrete inputs *)

Lemma generate_bounded_witness :
  (([] : list Recommendation) <> [] \/ length (name ricardo) <= 452)
  /\ length (generate lower_latin1 0 ricardo example_situation []) <= 500.
Proof.
  assert (length (name ricardo) <= 452) as Hname by (cbn; lia).
  split; [by right|].
  exact (generate_bounded lower_latin1 0 ricardo example_situation []
           (or_intror Hname)).
Defined.

Lemma truncate_shape_witness :
  500 < length long_text
  /\ truncate long_text = take 497 long_text ++ u"..."
  /\ length (truncate long_text) = 500.
Proof.
  assert (500 < length long_text) as Hlong
    by (apply Nat.ltb_lt; vm_compute; reflexivity).
  split; [exact Hlong|].
  destruct (truncate_shape long_text Hlong) as [(_ & _ & Hlen) | Hcut].
  - assert (length (truncate long_text) = 500) as Heq
      by (vm_compute; reflexivity).
    lia.
  - exact Hcut.
Defined.

Lemma generate_starts_with_name_witness :
  length (name ricardo) <= 301
  /\ (name ricardo `prefix_of`
        generate lower_latin1 0 ricardo example_situation
                 (recommend lower_latin1 example_catalog ricardo
                            example_situation 3)).
Proof.
  assert (length (name ricardo) <= 301) as Hname by (cbn; lia).
  split; [exact Hname|].
  exact (generate_starts_with_name lower_latin1 0 ricardo example_situation _
           Hname).
Defined.

Lemma unknown_situation_score_witness :
  (type unknown_situation ∉ SITUATION_CONFIG.*1)
  /\ get_config (type unknown_situation) = no_signal.
Proof.
  assert (type unknown_situation ∉ SITUATION_CONFIG.*1) as Hunknown
    by (apply (bool_decide_unpack _); vm_compute; exact I).
  split; [exact Hunknown|].
  exact (proj1 (unknown_situation_score lower_latin1 ricardo unknown_situation
                  torneo Hunknown)).
Defined.

Lemma hobby_added_score_witness :
  hobbies reader = [u"lectura"] ++ [u"cocina"]
  /\ hobbies reader_with_spa = [u"lectura"] ++ u"Spa" :: [u"cocina"]
  /\ ((score_product lower_latin1 reader
                     (get_config (type example_situation))
                     (tag_product lower_latin1 (product_of_raw raw_spa))).1
      <= (score_product lower_latin1 reader_with_spa
                        (get_config (type example_situation))
                        (tag_product lower_latin1
                                     (product_of_raw raw_spa))).1)%Z.
Proof.
  split; [reflexivity|]. split; [reflexivity|].
  exact (proj2 (hobby_added_score lower_latin1 reader reader_with_spa
                  (get_config (type example_situation))
                  (tag_product lower_latin1 (product_of_raw raw_spa))
                  [u"lectura"] [u"cocina"] (u"Spa") eq_refl eq_refl)).
Defined.

Lemma recommend_prefix_witness :
  (0 <= 1 <= 3)%Z
  /\ recommend lower_latin1 example_catalog ricardo example_situation 1
     = take (Z.to_nat 1)
            (recommend lower_latin1 example_catalog ricardo
                       example_situation 3).
Proof.
  assert (0 <= 1 <= 3)%Z as Hmn by lia.
  split; [exact Hmn|].
  exact (recommend_prefix lower_latin1 example_catalog ricardo
           example_situation 1 3 Hmn).
Defined.

Lemma recommend_extreme_bounds_witness :
  (0 = 0 \/ 0 <= - Z.of_nat (length (positives lower_latin1 example_catalog
                                        ricardo
                                        (get_config (type example_situation)))))%Z
  /\ recommend lower_latin1 example_catalog ricardo example_situation 0 = [].
Proof.
  split; [by left|].
  exact (proj1 (recommend_extreme_bounds lower_latin1 example_catalog ricardo
                  example_situation 0) (or_introl eq_refl)).
Defined.

Lemma hr_accept_notification_witness :
  length (name ricardo) <= 301
  /\ exists rest,
       HRWorkflow.employee_message
         (HRWorkflow.hr_accept lower_latin1 example_catalog 0 ricardo
            example_situation
            (HRWorkflow.make_card
               (BeHumanRecommender.format
                  (rate lower_latin1 ricardo
                        (get_config (type example_situation)) torneo))))
       = u"Hemos recibido una notificación anónima sobre tu situación. "
           ++ name ricardo ++ rest.
Proof.
  assert (length (name ricardo) <= 301) as Hname by (cbn; lia).
  split; [exact Hname|].
  pose proof (hr_accept_notification lower_latin1 example_catalog 0 ricardo
                example_situation
                (HRWorkflow.make_card
                   (BeHumanRecommender.format
                      (rate lower_latin1 ricardo
                            (get_config (type example_situation)) torneo))))
    as (_ & _ & _ & _ & Hopens).
  exact (Hopens Hname).
Defined.

Lemma trim_to_limit_bounded_witness :
  (3 <= 500)%Z
  /\ (Z.of_nat (length (EmpathicMessage._trim_to_limit exceeds_at_500
                                                         long_text 500))
      <= 500)%Z.
Proof.
  assert (3 <= 500)%Z as Hlimit by lia.
  split; [exact Hlimit|].
  exact (trim_to_limit_bounded exceeds_at_500 long_text 500 Hlimit).
Defined.

(** The workflow on the example catalog: two cards, for the two best
    entries; a text without period or space is trimmed to 496
    characters and three dots. *)
Example create_hr_cards_example :
  List.map (fun card => (HRWorkflow.title card, HRWorkflow.card_score card,
                         HRWorkflow.estimated_productivity_uplift_tenths card))
           (HRWorkflow.create_hr_cards lower_latin1 example_catalog 0 ricardo
                                       example_situation)
  = [ (u"Spa y descanso", 120%Z, 240%Z);
      (u"Caminata Ecológica", 75%Z, 150%Z) ].
Proof. vm_compute. reflexivity. Qed.

Example trim_to_limit_example :
  EmpathicMessage._trim_to_limit exceeds_at_500 long_text 500
  = repeat 97%N 496 ++ u"...".
Proof. vm_compute. reflexivity. Qed.
